(** * Darcy-Weisbach friction factor: resolver and Moody sampler

    A shallow embedding of [HW5SP25a.py] ([ff], [plotMoody]) and
    [HW5SP25b.py] ([calculate_friction_factor]).

    Python floats and numpy float64 scalars are IEEE-754 binary64 numbers:
    they are modelled by Rocq's primitive floats, whose operations are the
    same correctly rounded binary64 operations.  Exceptions are an error
    result, and the process-wide pseudorandom generator is a state that is
    passed explicitly.  The numerical libraries the two files import
    (numpy's [log10] and [logspace], scipy's [fsolve], the standard
    library's [random.normalvariate]) are not part of the repository: they
    are the fields of the class [Libs], and the statements about the
    resolver and the sampler hold for all of its instances.  The module
    [Doubles] gives one executable instance, on which the concrete runs
    at the end are evaluated; the module [Ideal] reads the Colebrook
    residual over the reals. *)

From Stdlib Require Import ZArith List Bool Lia Floats.
From Stdlib Require String.
From Stdlib Require Reals Lra.
Import ListNotations.

Set Warnings "-inexact-float".

(** ** Python values *)

Module Py.

(** The only exception the modelled code can raise by itself. *)
Inductive exn : Set :=
| ZeroDivisionError.

Inductive result (A : Type) : Type :=
| Ok (a : A)
| Raise (e : exn).
Arguments Ok {A} a.
Arguments Raise {A} e.

(** A number is a Python [float], as [main] computes the Reynolds number
    from the console input, or a numpy [float64] scalar, as the elements
    of the arrays of [plotMoody] are.  Both hold a binary64 value; they
    differ in true division by zero, which raises for the first and
    yields an infinity or a NaN (with a warning) for the second. *)
Inductive number : Set :=
| PyFloat (v : float)
| NpFloat64 (v : float).

Definition val (x : number) : float :=
  match x with
  | PyFloat v => v
  | NpFloat64 v => v
  end.

(** [a / b] for a literal [a], as in [64 / Re]. *)
Definition truediv (a : float) (b : number) : result float :=
  match b with
  | PyFloat v => if (v =? 0)%float then Raise ZeroDivisionError else Ok (a / v)%float
  | NpFloat64 v => Ok (a / v)%float
  end.

End Py.
Import Py.

(** ** The imported libraries *)

(** What [scipy.optimize.fsolve] hands back for a one-element guess: the
    single entry of the returned array ([result[0]] in the source), and
    MINPACK's termination flag.  The flag is 1 when the iteration
    converged; for the other flags of a finished iteration scipy emits a
    [RuntimeWarning] and still returns the last iterate.  The source does
    not ask for the full output, so only [sol_x] reaches it. *)
Record fsolve_out : Set := {
  sol_x : float;
  sol_ier : Z
}.

Definition converged (o : fsolve_out) : bool := (sol_ier o =? 1)%Z.


(** The call [fsolve(cb, 0.02)] raises only for improper call parameters
    or from its callback; neither can happen here ([cb] works on numpy
    arrays, whose arithmetic does not raise), so [fsolve] is a function. *)
Class Libs : Type := {
  (** [numpy.log10] *)
  log10 : float -> float;
  (** [numpy.logspace start stop num] *)
  logspace : float -> float -> nat -> list float;
  (** [scipy.optimize.fsolve func x0] *)
  fsolve : (float -> float) -> float -> fsolve_out;
  (** the state of the generator behind the [random] module *)
  rng : Type;
  (** [random.normalvariate mu sigma]: the draw and the advanced state *)
  normalvariate : float -> float -> rng -> float * rng
}.

(** ** Effects of the resolver: exceptions over the generator state *)

Definition Eff `{Libs} (A : Type) : Type := rng -> result A * rng.

Definition bind `{Libs} {A B} (m : Eff A) (k : A -> Eff B) : Eff B :=
  fun s =>
    match m s with
    | (Ok a, s') => k a s'
    | (Raise e, s') => (Raise e, s')
    end.

(** A computation that does not touch the generator. *)
Definition pure `{Libs} {A} (r : result A) : Eff A := fun s => (r, s).

(** A computation that only draws. *)
Definition draw `{Libs} {A} (d : rng -> A * rng) : Eff A :=
  fun s => let (a, s') := d s in (Ok a, s').

Notation "x <- m ;; k" := (bind m (fun x => k))
  (at level 61, m at next level, right associativity).

Section Resolver.
Context `{L : Libs}.
Open Scope float_scope.

(** The Colebrook residual, the [lambda] of [ff] (HW5SP25a.py, line 25). *)
Definition cb (Re : number) (rr : float) (f : float) : float :=
  1 / sqrt f + 2.0 * log10 (rr / 3.7 + 2.51 / (val Re * sqrt f)).

(** [ff] (HW5SP25a.py, lines 11-29). *)
Definition ff (Re : number) (rr : float) (CBEQN : bool) : result float :=
  if CBEQN then
    let result := fsolve (cb Re rr) 0.02 in
    Ok (sol_x result)
  else
    truediv 64 Re.

(** The interpolated mean and the spread of the transition branch
    (HW5SP25b.py, lines 41 and 42). *)
Definition mu_f (Re f_CB f_lam : float) : float :=
  f_lam + (f_CB - f_lam) * ((Re - 2000) / 2000).

Definition sigma_f (mu : float) : float := 0.2 * mu.

(** [calculate_friction_factor] (HW5SP25b.py, lines 14-43). *)
Definition calculate_friction_factor (Re : number) (rr : float) : Eff float :=
  if 4000 <=? val Re then
    pure (ff Re rr true)
  else if val Re <=? 2000 then
    pure (truediv 64 Re)
  else
    f_CB <- pure (ff Re rr true) ;;
    f_lam <- pure (truediv 64 Re) ;;
    let mu := mu_f (val Re) f_CB f_lam in
    draw (normalvariate mu (sigma_f mu)).

End Resolver.

(** ** The Moody sampler *)

(** One invocation of [ff], as the sampler issues it. *)
Record call : Set := {
  call_Re : number;
  call_rr : float;
  call_CBEQN : bool
}.

(** A sampler computation: the invocations of [ff] made so far, in order,
    and the value or the exception that stopped the sweep. *)
Definition Traced (A : Type) : Type := list call * result A.

Definition tret {A} (a : A) : Traced A := ([], Ok a).

Definition tbind {A B} (m : Traced A) (k : A -> Traced B) : Traced B :=
  match m with
  | (log, Ok a) => let (log', r) := k a in (log ++ log', r)
  | (log, Raise e) => (log, Raise e)
  end.

Notation "x <~ m ;; k" := (tbind m (fun x => k))
  (at level 61, m at next level, right associativity).

(** A list comprehension [[f x for x in xs]]: left to right, stopping at
    the first exception. *)
Fixpoint comprehension {A B} (f : A -> Traced B) (xs : list A) : Traced (list B) :=
  match xs with
  | [] => tret []
  | x :: xs' =>
      y <~ f x ;;
      ys <~ comprehension f xs' ;;
      tret (y :: ys)
  end.

Section Sampler.
Context `{L : Libs}.
Open Scope float_scope.

Definition call_ff (Re : number) (rr : float) (CBEQN : bool) : Traced float :=
  ([{| call_Re := Re; call_rr := rr; call_CBEQN := CBEQN |}], ff Re rr CBEQN).

(** Step 1 of [plotMoody] (HW5SP25a.py, lines 44-46). *)
Definition ReValsCB : list float := logspace (log10 4000) (log10 1e8) 100.
Definition ReValsL : list float := logspace (log10 600) (log10 2000) 20.
Definition ReValsTrans : list float := logspace (log10 2000) (log10 4000) 20.

(** Step 2 (lines 49-50). *)
Definition rrVals : list float :=
  [0; 1E-6; 5E-6; 1E-5; 5E-5; 1E-4; 2E-4; 4E-4; 6E-4; 8E-4;
   1E-3; 2E-3; 4E-3; 6E-3; 8E-3; 1.5E-2; 2E-2; 3E-2; 4E-2; 5E-2].

(** The three data series of the diagram. *)
Record series : Set := {
  ffLam : list float;
  ffTrans : list float;
  ffCB : list (list float)
}.

(** [plotMoody], steps 1 to 3 (lines 44-55): the data series.  The
    elements of a numpy array are float64 scalars.  Step 4 hands the
    series to matplotlib; [plotPoint] and [pt] only add a marker there. *)
Definition plotMoody : Traced series :=
  lam <~ comprehension (fun Re => call_ff (NpFloat64 Re) 0 false) ReValsL ;;
  trans <~ comprehension (fun Re => call_ff (NpFloat64 Re) 0 false) ReValsTrans ;;
  turb <~ comprehension
            (fun relRough =>
               comprehension (fun Re => call_ff (NpFloat64 Re) relRough true) ReValsCB)
            rrVals ;;
  tret {| ffLam := lam; ffTrans := trans; ffCB := turb |}.

End Sampler.

(** The invocation of [ff] the sampler makes for one grid point. *)
Definition forced (CBEQN : bool) (rr Re : float) : call :=
  {| call_Re := NpFloat64 Re; call_rr := rr; call_CBEQN := CBEQN |}.

(** Strictly increasing, by the binary64 order. *)
Fixpoint increasing (xs : list float) : bool :=
  match xs with
  | x :: (y :: _) as xs' => (x <? y)%float && increasing xs'
  | _ => true
  end.

(** ** The Colebrook formula over the reals

    The Colebrook residual read with exact real arithmetic in the place
    of binary64 arithmetic, for the monotonicity of its exact root. *)

Module Ideal.
Import Reals.
Open Scope R_scope.

Definition log10 (x : R) : R := ln x / ln 10.

(** HW5SP25a.py, line 25. *)
Definition cb (Re rr f : R) : R :=
  1 / sqrt f + 2 * log10 (rr / (37 / 10) + (251 / 100) / (Re * sqrt f)).

End Ideal.

(** ** Executable stand-ins for the libraries

    One instance of [Libs] on which the resolver and the sampler run:
    series for the logarithm and the powers of ten, a secant iteration
    with an iteration budget in the place of [fsolve], and a generator
    whose state is the list of the standard normal deviates it will
    deliver, [normalvariate mu sigma] being [mu + z * sigma] for the next
    deviate [z]. *)

Module Doubles.
Open Scope float_scope.

Definition ln2 : float := 0.6931471805599453.
Definition ln10 : float := 2.302585092994046.

(** Bring [x] into [[0.75, 1.5]] by halving or doubling; the second
    component accumulates the matching multiples of [ln 2]. *)
Fixpoint reduce (fuel : nat) (x acc : float) : float * float :=
  match fuel with
  | O => (x, acc)
  | S fuel' =>
      if 1.5 <? x then reduce fuel' (x / 2) (acc + ln2)
      else if x <? 0.75 then reduce fuel' (x * 2) (acc - ln2)
      else (x, acc)
  end.

(** [t + t^3/3 + t^5/5 + ...], [n] terms from the odd number [k]. *)
Fixpoint atanh_terms (n : nat) (t2 p k : float) : float :=
  match n with
  | O => 0
  | S n' => p / k + atanh_terms n' t2 (p * t2) (k + 2)
  end.

Definition ln (x : float) : float :=
  let (m, acc) := reduce 1100 x 0 in
  let t := (m - 1) / (m + 1) in
  acc + 2 * atanh_terms 14 (t * t) t 1.

Definition log10_series (x : float) : float := ln x / ln10.

(** [1 + z + z^2/2! + ...], [n] terms. *)
Fixpoint exp_terms (n : nat) (z p k : float) : float :=
  match n with
  | O => 0
  | S n' => p + exp_terms n' z (p * z / k) (k + 1)
  end.

Fixpoint square_times (n : nat) (x : float) : float :=
  match n with
  | O => x
  | S n' => square_times n' (x * x)
  end.

Definition exp (z : float) : float :=
  square_times 10 (exp_terms 12 (z / 1024) 1 1).

Definition pow10 (y : float) : float := exp (y * ln10).

Fixpoint linspace_from (num : nat) (start step i : float) : list float :=
  match num with
  | O => []
  | S num' => (start + i * step) :: linspace_from num' start step (i + 1)
  end.

Fixpoint float_of_nat (n : nat) : float :=
  match n with
  | O => 0
  | S n' => float_of_nat n' + 1
  end.

Definition logspace_series (start stop : float) (num : nat) : list float :=
  let step := (stop - start) / float_of_nat (Nat.pred num) in
  map pow10 (linspace_from num start step 0).

(** The secant iteration from the guess, [budget] steps at most. *)
Fixpoint secant (budget : nat) (g : float -> float) (prev cur : float) : float :=
  match budget with
  | O => cur
  | S budget' =>
      let gp := g prev in
      let gc := g cur in
      if gc =? gp then cur
      else secant budget' g cur (cur - gc * (cur - prev) / (gc - gp))
  end.

(** The flag is 1 when the residual at the returned iterate is below
    [1e-10], and 5 ("not making good progress") otherwise. *)
Definition secant_solver (budget : nat) (g : float -> float) (x0 : float) : fsolve_out :=
  let x := secant budget g (x0 * 1.001) x0 in
  {| sol_x := x; sol_ier := if abs (g x) <? 1e-10 then 1%Z else 5%Z |}.

Definition next_deviate (mu sigma : float) (s : list float) : float * list float :=
  match s with
  | [] => (mu, [])
  | z :: s' => (mu + z * sigma, s')
  end.

Definition libs (budget : nat) : Libs := {|
  log10 := log10_series;
  logspace := logspace_series;
  fsolve := secant_solver budget;
  rng := list float;
  normalvariate := next_deviate
|}.

End Doubles.

(** ** The binary64 constants of the source, decoded *)

Module Decoded.

Definition m2000 : positive := 8796093022208000.
Definition SF2000 : spec_float := S754_finite false m2000 (-42).
Definition SF4000 : spec_float := S754_finite false m2000 (-41).
Definition m64 : positive := 4503599627370496.


(** The exponent of the smallest subnormal number. *)
Abbreviation emin64 := (-1074)%Z.

End Decoded.

(** ** The interactive calculator (HW5SP25b.py)

    [compute_head_loss], [plot_moody_diagram] and the body of the loop of
    [main].  The numbers typed at the console are Python floats, so their
    divisions raise on a zero divisor and their squares go through
    Python's float power. *)

Module Calc.
Open Scope float_scope.

(** The exceptions of the calculator: those of the resolver, and the
    [OverflowError] of a float power. *)
Inductive error : Set :=
| Core (e : exn)
| OverflowError.

Inductive outcome (A : Type) : Type :=
| Done (a : A)
| Failed (e : error).
Arguments Done {A} a.
Arguments Failed {A} e.

Definition lift {A} (r : result A) : outcome A :=
  match r with
  | Ok a => Done a
  | Raise e => Failed (Core e)
  end.

(** [a / b] on two Python floats. *)
Definition fdiv (a b : float) : outcome float := lift (truediv a (PyFloat b)).

(** The platform's [pow(x, 2.0)], which Python's float power calls for
    the ordinary operands. *)
Class Libm : Type := {
  pow_2 : float -> float
}.

(** [x ** 2] on a Python float.  The interpreter settles the special
    operands itself (a NaN is returned, an infinity gives the positive
    infinity, a zero gives [0.0], a negative base is replaced by its
    absolute value as the exponent is even, and [1.0] gives [1.0]); for
    the others it calls the platform's [pow] and reports an infinite
    result as [OverflowError]. *)
Definition float_pow_2 `{Libm} (x : float) : outcome float :=
  if is_nan x then Done x
  else if is_infinity x then Done (abs x)
  else if x =? 0 then Done 0
  else
    let iv := if x <? 0 then - x else x in
    if iv =? 1 then Done 1
    else
      let ix := pow_2 iv in
      if is_infinity ix then Failed OverflowError else Done ix.

(** [numpy.pi], the double nearest to pi. *)
Definition np_pi : float := 3.141592653589793.

(** [compute_head_loss] (HW5SP25b.py, lines 46-61).  [Q] and [D] are
    Python floats; the friction factor is a Python float or a numpy
    scalar, which decides how the last division treats a zero divisor. *)
Definition compute_head_loss `{Libm} (f : number) (Q D : float) : outcome float :=
  let g := 32.174 in
  let D_ft := D / 12 in
  match float_pow_2 (D_ft / 2) with
  | Failed x => Failed x
  | Done sq =>
      match fdiv (Q / 448.831) (np_pi * sq) with
      | Failed x => Failed x
      | Done V =>
          match float_pow_2 V with
          | Failed x => Failed x
          | Done V2 =>
              let num := val f * V2 in
              let den := 2 * g * D_ft in
              match f with
              | PyFloat _ => fdiv num den
              | NpFloat64 _ => Done (num / den)
              end
          end
      end
  end.

(** The texts [plot_moody_diagram] writes on the axes. *)
Module Labels.
Import String.
Open Scope string_scope.

Definition x_text : string := "Reynolds Number (Re)".
Definition y_text : string := "Friction Factor (f)".
Definition title_text : string := "Moody Diagram".

End Labels.

(** The two markers of [plot_moody_diagram]: ['^'] and ['o']. *)
Inductive marker : Set :=
| Triangle
| Circle.

(** One red scatter point. *)
Record scatter_point : Set := {
  sc_Re : float;
  sc_f : float;
  sc_marker : marker
}.

Definition new_point (Re f : float) (mk : marker) : scatter_point :=
  {| sc_Re := Re; sc_f := f; sc_marker := mk |}.

(** What the calculator puts on the global axes [moody_ax]: the scatter
    points, oldest first, and the three texts. *)
Record axes : Set := {
  points : list scatter_point;
  xlabel : String.string;
  ylabel : String.string;
  title : String.string
}.

(** The axes as [plt.subplots()] creates them. *)
Definition fresh_axes : axes :=
  {| points := [];
     xlabel := String.EmptyString;
     ylabel := String.EmptyString;
     title := String.EmptyString |}.

(** [plot_moody_diagram] (HW5SP25b.py, lines 64-81). *)
Definition plot_moody_diagram (Re f : float) (ax : axes) : axes :=
  let marker := if (2000 <? Re) && (Re <? 4000) then Triangle else Circle in
  {| points := points ax ++ [new_point Re f marker];
     xlabel := Labels.x_text;
     ylabel := Labels.y_text;
     title := Labels.title_text |}.

(** The kind of number [calculate_friction_factor] returns for a Python
    float [Re]: the laminar quotient is a Python float, while the root of
    [fsolve] and the draw around a numpy mean are numpy scalars. *)
Definition returned (Re f : float) : number :=
  if 4000 <=? Re then NpFloat64 f
  else if Re <=? 2000 then PyFloat f
  else NpFloat64 f.

(** What one pass of the loop of [main] reports: the three numbers it
    prints. *)
Record report : Set := {
  rep_Re : float;
  rep_f : float;
  rep_hf_L : float
}.

(** One pass of the loop of [main] (HW5SP25b.py, lines 103-122), from the
    three numbers read to the point added to the diagram.  The state is
    the generator and the axes; an exception ends the program and leaves
    what was done before it. *)
Definition main_case `{Libs} `{Libm} (D e_mics Q : float) (w : rng * axes)
  : outcome report * (rng * axes) :=
  let (s, ax) := w in
  let e := e_mics * 1e-6 / 12 in
  match fdiv e (D / 12) with
  | Failed x => (Failed x, (s, ax))
  | Done rr =>
      let v_kinematic := 1.08e-5 in
      match float_pow_2 (D / 12 / 2) with
      | Failed x => (Failed x, (s, ax))
      | Done sq =>
          match fdiv (Q / 448.831) (np_pi * sq) with
          | Failed x => (Failed x, (s, ax))
          | Done V =>
              let Re := (V * (D / 12)) / v_kinematic in
              match calculate_friction_factor (PyFloat Re) rr s with
              | (Raise x, s') => (Failed (Core x), (s', ax))
              | (Ok f, s') =>
                  match compute_head_loss (returned Re f) Q D with
                  | Failed x => (Failed x, (s', ax))
                  | Done hf_L =>
                      (Done {| rep_Re := Re; rep_f := f; rep_hf_L := hf_L |},
                       (s', plot_moody_diagram Re f ax))
                  end
              end
          end
      end
  end.

End Calc.

(** A stand-in for the platform's power: the rounded product. *)

Module CalcDoubles.
Open Scope float_scope.

Definition libm : Calc.Libm := {| Calc.pow_2 := fun x => x * x |}.

End CalcDoubles.

(** ** The piston model (HW5SP25c.py) *)

Module Piston.
Open Scope float_scope.

(** The exceptions of [ode_system]: the [ValueError] of an unpacking with
    the wrong number of values, and those of a division. *)
Inductive error : Set :=
| ValueError
| Division (e : exn).

Inductive outcome (A : Type) : Type :=
| Done (a : A)
| Failed (e : error).
Arguments Done {A} a.
Arguments Failed {A} e.

(** The kind of the result of an arithmetic operation: a numpy scalar as
    soon as one operand is one.  (A Python [int], such as the mass 30 of
    [main], is read as the float it converts to.) *)
Definition like (a b : number) (v : float) : number :=
  match a, b with
  | PyFloat _, PyFloat _ => PyFloat v
  | _, _ => NpFloat64 v
  end.

Definition nsub (a b : number) : number := like a b (val a - val b).
Definition nmul (a b : number) : number := like a b (val a * val b).

(** Only the division of two Python floats raises on a zero divisor. *)
Definition ndiv (a b : number) : outcome number :=
  match a, b with
  | PyFloat x, PyFloat y =>
      if y =? 0 then Failed (Division ZeroDivisionError) else Done (PyFloat (x / y))
  | _, _ => Done (NpFloat64 (val a / val b))
  end.

(** [ode_system] (HW5SP25c.py, lines 11-28).  The quotient [beta / V] is
    evaluated for each of the two pressure rates, to the same value. *)
Definition ode_system (t : number) (X : list number) (params : list number)
  : outcome (list number) :=
  match params with
  | [A; Cd; ps; pa; V; beta; rho; Kvalve; m; y] =>
      match X with
      | [x; xdot; p1; p2] =>
          match ndiv (nmul A (nsub p1 p2)) m with
          | Failed e => Failed e
          | Done xddot =>
              match ndiv beta V with
              | Failed e => Failed e
              | Done q =>
                  let p1dot := nmul q (nmul Kvalve (nsub ps p1)) in
                  let p2dot := nmul q (nmul Kvalve (nsub p2 pa)) in
                  Done [xdot; xddot; p1dot; p2dot]
              end
          end
      | _ => Failed ValueError
      end
  | _ => Failed ValueError
  end.

End Piston.

(** ** Classes of binary64 numbers *)

Module Binary64.
Open Scope float_scope.

(** Neither an infinity nor a NaN. *)
Definition finite (x : float) : bool := abs x <? infinity.

(** A number with a mantissa: finite and not a zero. *)
Definition finite_nonzero (c : float) : Prop :=
  exists s m e, Prim2SF c = S754_finite s m e.

(** A finite number of magnitude at least one. *)
Definition at_least_one (c : float) : Prop :=
  exists s m e,
    Prim2SF c = S754_finite s m e /\ (1 <= Zpos (digits2_pos m) + e)%Z.

End Binary64.

(** * Properties *)

(** ** Binary64 comparisons against the regime bounds *)

Module F64.
Import Decoded.
Open Scope float_scope.

(** *** Comparison of decoded operands *)

Lemma SFcompare_antisym (x y : spec_float) :
  SFcompare y x = option_map CompOpp (SFcompare x y).
Proof.
  destruct x as [sx|sx| |sx mx ex], y as [sy|sy| |sy my ey];
    try destruct sx; try destruct sy; try reflexivity.
  all: cbn [SFcompare option_map]; f_equal.
  all: rewrite (Z.compare_antisym ex ey).
  all: destruct (Z.compare ex ey); cbn [CompOpp]; try reflexivity.
  all: change PosDef.Pos.compare_cont with Pos.compare_cont.
  all: change (Pos.compare_cont Eq) with Pos.compare.
  all: rewrite (Pos.compare_antisym mx my).
  all: destruct (Pos.compare mx my); reflexivity.
Qed.

Lemma SFltb_not_SFleb (x y : spec_float) :
  SFltb x y = true -> SFleb y x = false.
Proof.
  unfold SFltb, SFleb. rewrite (SFcompare_antisym x y).
  destruct (SFcompare x y) as [[]|]; cbn; congruence.
Qed.

(** Two positive finite bounds whose exponents differ are apart. *)
Lemma SFleb_low_not_high (x : spec_float) (m1 m2 : positive) (e1 e2 : Z) :
  (e1 < e2)%Z ->
  SFleb x (S754_finite false m1 e1) = true ->
  SFleb (S754_finite false m2 e2) x = false.
Proof.
  intros He. unfold SFleb.
  destruct x as [s|s| |s m e]; cbn [SFcompare];
    try destruct s; try discriminate; try (intros _; reflexivity).
  destruct (Z.compare_spec e e1), (Z.compare_spec e2 e);
    try lia; try discriminate; intros _; reflexivity.
Qed.

Lemma SFltb_zero_pos (x : spec_float) :
  SFltb (S754_zero false) x = true ->
  x = S754_infinity false \/ exists m e, x = S754_finite false m e.
Proof.
  unfold SFltb. destruct x as [s|s| |s m e]; cbn [SFcompare];
    try destruct s; try discriminate; intros _.
  - left; reflexivity.
  - right; exists m, e; reflexivity.
Qed.

Lemma SFltb_neg_zero (x : spec_float) :
  SFltb x (S754_zero false) = true ->
  x = S754_infinity true \/ exists m e, x = S754_finite true m e.
Proof.
  unfold SFltb. destruct x as [s|s| |s m e]; cbn [SFcompare];
    try destruct s; try discriminate; intros _.
  - left; reflexivity.
  - right; exists m, e; reflexivity.
Qed.

Lemma SFeqb_zero (x : spec_float) :
  SFeqb x (S754_zero false) = true -> exists s, x = S754_zero s.
Proof.
  unfold SFeqb. destruct x as [s|s| |s m e]; cbn [SFcompare];
    try destruct s; try discriminate; intros _; eexists; reflexivity.
Qed.

(** *** The constants of the source *)

Lemma Prim2SF_2000 : Prim2SF 2000 = SF2000.
Proof. vm_compute. reflexivity. Qed.

Lemma Prim2SF_4000 : Prim2SF 4000 = SF4000.
Proof. vm_compute. reflexivity. Qed.


Lemma Prim2SF_0 : Prim2SF 0 = S754_zero false.
Proof. vm_compute. reflexivity. Qed.

Lemma Prim2SF_infinity : Prim2SF infinity = S754_infinity false.
Proof. vm_compute. reflexivity. Qed.

(** *** Facts about the regime tests *)

Lemma le_2000_not_ge_4000 x : (x <=? 2000) = true -> (4000 <=? x) = false.
Proof.
  rewrite !leb_spec, Prim2SF_2000, Prim2SF_4000.
  apply SFleb_low_not_high. lia.
Qed.

Lemma gt_2000_not_le_2000 x : (2000 <? x) = true -> (x <=? 2000) = false.
Proof. rewrite ltb_spec, leb_spec. apply SFltb_not_SFleb. Qed.

Lemma lt_4000_not_ge_4000 x : (x <? 4000) = true -> (4000 <=? x) = false.
Proof. rewrite ltb_spec, leb_spec. apply SFltb_not_SFleb. Qed.

Lemma pos_not_zero x : (0 <? x) = true -> (x =? 0) = false.
Proof.
  rewrite ltb_spec, eqb_spec, Prim2SF_0. intros H.
  destruct (SFltb_zero_pos _ H) as [-> | (m & e & ->)]; reflexivity.
Qed.

Lemma neg_not_zero x : (x <? 0) = true -> (x =? 0) = false.
Proof.
  rewrite ltb_spec, eqb_spec, Prim2SF_0. intros H.
  destruct (SFltb_neg_zero _ H) as [-> | (m & e & ->)]; reflexivity.
Qed.

Lemma neg_le_2000 x : (x <? 0) = true -> (x <=? 2000) = true.
Proof.
  rewrite ltb_spec, leb_spec, Prim2SF_0, Prim2SF_2000. intros H.
  destruct (SFltb_neg_zero _ H) as [-> | (m & e & ->)]; reflexivity.
Qed.

Lemma zero_le_2000 x : (x =? 0) = true -> (x <=? 2000) = true.
Proof.
  rewrite eqb_spec, leb_spec, Prim2SF_0, Prim2SF_2000. intros H.
  destruct (SFeqb_zero _ H) as (s & ->). reflexivity.
Qed.


(** *** Rounding keeps a quotient away from zero *)

Section Rounding.
Open Scope Z_scope.

Lemma digits2_pos_lower (m : positive) :
  2 ^ Zpos (digits2_pos m) <= 2 * Zpos m.
Proof.
  induction m as [p IH|p IH|]; cbn [digits2_pos].
  - rewrite Pos2Z.inj_succ, Z.pow_succ_r by lia. lia.
  - rewrite Pos2Z.inj_succ, Z.pow_succ_r by lia. lia.
  - reflexivity.
Qed.

Lemma digits2_pos_upper (m : positive) :
  Zpos m < 2 ^ Zpos (digits2_pos m).
Proof.
  induction m as [p IH|p IH|]; cbn [digits2_pos].
  - rewrite Pos2Z.inj_succ, Z.pow_succ_r by lia. lia.
  - rewrite Pos2Z.inj_succ, Z.pow_succ_r by lia. lia.
  - reflexivity.
Qed.

Lemma shr_1_lower (mrs : shr_record) (k : Z) :
  0 <= k -> 2 ^ (k + 1) <= shr_m mrs -> 2 ^ k <= shr_m (shr_1 mrs).
Proof.
  intros Hk. rewrite Z.pow_add_r, Z.pow_1_r by lia.
  pose proof (Z.pow_pos_nonneg 2 k ltac:(lia) Hk) as Hp.
  destruct mrs as [m r s]. cbn [shr_m shr_1].
  destruct m as [|[p|p|]|[p|p|]]; cbn [shr_m]; lia.
Qed.

Lemma iter_shr_1_lower (p : positive) :
  forall (mrs : shr_record) (k : Z),
    0 <= k -> 2 ^ (k + Zpos p) <= shr_m mrs ->
    2 ^ k <= shr_m (iter_pos shr_1 p mrs).
Proof.
  induction p as [p IH|p IH|]; intros mrs k Hk H; cbn [iter_pos].
  - apply IH; [exact Hk|]. apply IH; [lia|]. apply shr_1_lower; [lia|].
    replace (k + Z.pos p + Z.pos p + 1) with (k + Z.pos p~1) by lia. exact H.
  - apply IH; [exact Hk|]. apply IH; [lia|].
    replace (k + Z.pos p + Z.pos p) with (k + Z.pos p~0) by lia. exact H.
  - apply shr_1_lower; assumption.
Qed.

Lemma shr_m_of_loc (m : Z) (l : location) : shr_m (shr_record_of_loc m l) = m.
Proof. destruct l as [|[]]; reflexivity. Qed.

Lemma round_nearest_even_lower (m : Z) (l : location) : m <= round_nearest_even m l.
Proof.
  unfold round_nearest_even. destruct l as [|[]]; try destruct (Z.even m); lia.
Qed.

Lemma fexp64 (x : Z) : fexp prec emax x = Z.max (x - 53) emin64.
Proof. reflexivity. Qed.

(** Shifting a mantissa into the format keeps it positive as long as
    the number is not below the smallest subnormal. *)
Lemma shr_fexp_positive (m : positive) (e : Z) (l : location) :
  emin64 < Zpos (digits2_pos m) + e ->
  1 <= shr_m (fst (shr_fexp prec emax (Zpos m) e l)) /\
  emin64 <= snd (shr_fexp prec emax (Zpos m) e l).
Proof.
  intros H. unfold shr_fexp, shr. cbn [Zdigits2]. rewrite fexp64.
  pose proof (digits2_pos_lower m) as Hd.
  set (d := Zpos (digits2_pos m)) in *.
  destruct (Z.max (d + e - 53) emin64 - e) as [|n|n] eqn:En; cbn [fst snd].
  - rewrite shr_m_of_loc. lia.
  - split; [|lia].
    apply (iter_shr_1_lower n _ 0); [lia|]. rewrite shr_m_of_loc, Z.add_0_l.
    assert (Hn : Zpos n <= d - 1) by lia.
    assert (2 ^ Zpos n <= 2 ^ (d - 1)) by (apply Z.pow_le_mono_r; lia).
    assert (2 ^ d = 2 * 2 ^ (d - 1)).
    { replace d with (Z.succ (d - 1)) at 1 by lia. apply Z.pow_succ_r. lia. }
    lia.
  - rewrite shr_m_of_loc. lia.
Qed.

Lemma binary_round_aux_positive (sx : bool) (m : positive) (e : Z) (l : location) :
  emin64 < Zpos (digits2_pos m) + e ->
  binary_round_aux prec emax sx (Zpos m) e l = S754_infinity sx \/
  exists m' e', binary_round_aux prec emax sx (Zpos m) e l = S754_finite sx m' e'.
Proof.
  intros H. unfold binary_round_aux.
  destruct (shr_fexp_positive m e l H) as [H1 He].
  destruct (shr_fexp prec emax (Zpos m) e l) as [mrs' e']. cbn [fst snd] in H1, He.
  pose proof (round_nearest_even_lower (shr_m mrs') (loc_of_shr_record mrs')) as Hr.
  destruct (round_nearest_even (shr_m mrs') (loc_of_shr_record mrs')) as [|m2|m2]; try lia.
  destruct (shr_fexp_positive m2 e' loc_Exact) as [H2 _]; [lia|].
  destruct (shr_fexp prec emax (Zpos m2) e' loc_Exact) as [mrs'' e'']. cbn [fst] in H2.
  destruct (shr_m mrs'') as [|m3|m3]; try lia.
  destruct (e'' <=? emax - prec).
  - right. exists m3, e''. reflexivity.
  - left. reflexivity.
Qed.


Lemma m64_pow : Zpos m64 = 2 ^ 52.
Proof. vm_compute. reflexivity. Qed.


End Rounding.


End F64.

(** ** More binary64 facts: NaN, zeros and products *)

Module F64More.
Import Decoded Binary64.
Open Scope float_scope.

Lemma SFcompare_refl (x : spec_float) :
  x <> S754_nan -> SFcompare x x = Some Eq.
Proof.
  destruct x as [s|s| |s m e]; intros H; try congruence; destruct s; cbn [SFcompare];
    try reflexivity.
  all: rewrite Z.compare_refl.
  all: change PosDef.Pos.compare_cont with Pos.compare_cont.
  all: change (Pos.compare_cont Eq) with Pos.compare.
  all: rewrite Pos.compare_refl; reflexivity.
Qed.

Lemma SFcompare_none (x y : spec_float) :
  SFcompare x y = None -> x = S754_nan \/ y = S754_nan.
Proof.
  destruct x as [sx|sx| |sx mx ex], y as [sy|sy| |sy my ey]; cbn [SFcompare];
    try discriminate; auto.
Qed.

Lemma Prim2SF_nan : Prim2SF nan = S754_nan.
Proof. vm_compute. reflexivity. Qed.

(** The test [x == x] fails for the NaN only. *)
Lemma self_eqb_false x : (x =? x) = false -> x = nan.
Proof.
  rewrite eqb_spec. unfold SFeqb. intros H.
  apply Prim2SF_inj. rewrite Prim2SF_nan.
  destruct (Prim2SF x) as [s|s| |s m e] eqn:E; try reflexivity;
    rewrite SFcompare_refl in H by discriminate; discriminate.
Qed.

Lemma self_eqb_true x : (x =? x) = true -> Prim2SF x <> S754_nan.
Proof.
  rewrite eqb_spec. unfold SFeqb. intros H E. rewrite E in H. discriminate.
Qed.

Lemma SFleb_false_SFltb (x y : spec_float) :
  x <> S754_nan -> y <> S754_nan -> SFleb y x = false -> SFltb x y = true.
Proof.
  intros Hx Hy. unfold SFleb, SFltb. rewrite (F64.SFcompare_antisym x y).
  destruct (SFcompare x y) as [[]|] eqn:E; cbn; try congruence.
  destruct (SFcompare_none _ _ E); contradiction.
Qed.

Lemma not_le_2000_gt x : (x =? x) = true -> (x <=? 2000) = false -> (2000 <? x) = true.
Proof.
  intros Hx. rewrite leb_spec, ltb_spec, F64.Prim2SF_2000.
  apply SFleb_false_SFltb; [discriminate|apply self_eqb_true, Hx].
Qed.

Lemma not_ge_4000_lt x : (x =? x) = true -> (4000 <=? x) = false -> (x <? 4000) = true.
Proof.
  intros Hx. rewrite leb_spec, ltb_spec, F64.Prim2SF_4000.
  apply SFleb_false_SFltb; [apply self_eqb_true, Hx|discriminate].
Qed.

(** Every ordered comparison with the NaN is false. *)
Lemma nan_unordered x :
  (nan <? x) = false /\ (nan <=? x) = false /\ (x <? nan) = false /\ (x <=? nan) = false.
Proof.
  rewrite !ltb_spec, !leb_spec, Prim2SF_nan. unfold SFltb, SFleb.
  destruct (Prim2SF x); repeat split; reflexivity.
Qed.

Lemma sub_nan_r x : x - nan = nan.
Proof.
  apply Prim2SF_inj. rewrite sub_spec, Prim2SF_nan. destruct (Prim2SF x); reflexivity.
Qed.

(** *** Zeros *)

Lemma eqb_zero_decoded x : (x =? 0) = true <-> exists s, Prim2SF x = S754_zero s.
Proof.
  rewrite eqb_spec, F64.Prim2SF_0. split.
  - apply F64.SFeqb_zero.
  - intros (s & ->). destruct s; reflexivity.
Qed.

Lemma eqb_zero_false_decoded x :
  (x =? 0) = false -> forall s, Prim2SF x <> S754_zero s.
Proof.
  intros H s E. assert (H' : (x =? 0) = true) by (apply eqb_zero_decoded; eauto).
  congruence.
Qed.

Lemma finite_decoded x :
  finite x = true ->
  (exists s, Prim2SF x = S754_zero s) \/ (exists s m e, Prim2SF x = S754_finite s m e).
Proof.
  unfold finite. rewrite ltb_spec, abs_spec, F64.Prim2SF_infinity.
  destruct (Prim2SF x) as [s|s| |s m e]; try discriminate; intros _; eauto.
Qed.

Lemma zero_div_finite x c :
  (x =? 0) = true -> finite_nonzero c -> (x / c =? 0) = true.
Proof.
  intros Hx (s & m & e & Hc). apply eqb_zero_decoded in Hx. destruct Hx as (sx & Hx).
  apply eqb_zero_decoded. rewrite div_spec, Hx, Hc. eexists. reflexivity.
Qed.

Lemma zero_div_pos q a :
  (q =? 0) = true -> (0 <? a) = true -> (q / a =? 0) = true.
Proof.
  intros Hq Ha. apply eqb_zero_decoded in Hq. destruct Hq as (sq & Hq).
  rewrite ltb_spec, F64.Prim2SF_0 in Ha.
  apply eqb_zero_decoded. rewrite div_spec, Hq.
  destruct (F64.SFltb_zero_pos _ Ha) as [-> | (m & e & ->)]; eexists; reflexivity.
Qed.

(** A zero divided by a number that is neither a zero nor the NaN. *)
Lemma zero_div_number z m :
  (z =? 0) = true -> (m =? 0) = false -> (m =? m) = true -> (z / m =? 0) = true.
Proof.
  intros Hz Hm Hn. apply eqb_zero_decoded in Hz. destruct Hz as (sz & Hz).
  apply eqb_zero_decoded. rewrite div_spec, Hz.
  rewrite eqb_spec, F64.Prim2SF_0 in Hm. rewrite eqb_spec in Hn.
  destruct (Prim2SF m) as [s|s| |s mm e];
    [destruct s; discriminate Hm| |discriminate Hn|]; eexists; reflexivity.
Qed.

Lemma zero_mul_finite v d :
  (v =? 0) = true -> finite d = true -> (v * d =? 0) = true.
Proof.
  intros Hv Hd. apply eqb_zero_decoded in Hv. destruct Hv as (sv & Hv).
  apply eqb_zero_decoded. rewrite mul_spec, Hv.
  destruct (finite_decoded d Hd) as [(s & ->) | (s & m & e & ->)]; eexists; reflexivity.
Qed.

Lemma finite_mul_zero c z :
  finite c = true -> (z =? 0) = true -> (c * z =? 0) = true.
Proof.
  intros Hc Hz. apply eqb_zero_decoded in Hz. destruct Hz as (sz & Hz).
  apply eqb_zero_decoded. rewrite mul_spec, Hz.
  destruct (finite_decoded c Hc) as [(s & ->) | (s & m & e & ->)]; eexists; reflexivity.
Qed.

(** The difference of a finite number with itself is a zero. *)
Lemma sub_self x : finite x = true -> (x - x =? 0) = true.
Proof.
  intros H. apply eqb_zero_decoded. rewrite sub_spec.
  destruct (finite_decoded x H) as [(s & ->) | (s & m & e & ->)].
  - destruct s; eexists; reflexivity.
  - unfold SF64sub. cbn [SFsub]. rewrite Z.sub_diag. eexists. reflexivity.
Qed.

Lemma zero_not_nan x : (x =? 0) = true -> is_nan x = false.
Proof.
  intros H. apply eqb_zero_decoded in H. destruct H as (s & H).
  unfold is_nan. rewrite eqb_spec, H. destruct s; reflexivity.
Qed.

Lemma zero_not_infinity x : (x =? 0) = true -> is_infinity x = false.
Proof.
  intros H. apply eqb_zero_decoded in H. destruct H as (s & H).
  unfold is_infinity. rewrite eqb_spec, abs_spec, H, F64.Prim2SF_infinity. reflexivity.
Qed.

(** *** The constants of the calculator *)

Lemma finite_nonzero_12 : finite_nonzero 12.
Proof. do 3 eexists. vm_compute. reflexivity. Qed.

Lemma finite_nonzero_2 : finite_nonzero 2.
Proof. do 3 eexists. vm_compute. reflexivity. Qed.

Lemma finite_nonzero_gpm : finite_nonzero 448.831.
Proof. do 3 eexists. vm_compute. reflexivity. Qed.

Lemma finite_nonzero_viscosity : finite_nonzero 1.08e-5.
Proof. do 3 eexists. vm_compute. reflexivity. Qed.

Lemma finite_pi : finite Calc.np_pi = true.
Proof. vm_compute. reflexivity. Qed.

Lemma two_g_at_least_one : at_least_one (2 * 32.174).
Proof. do 3 eexists. split; vm_compute; [reflexivity|discriminate]. Qed.

(** *** Products that cannot underflow *)

Section Products.
Open Scope Z_scope.

Lemma digits2_pos_mul (a b : positive) :
  Zpos (digits2_pos a) + Zpos (digits2_pos b) - 1 <= Zpos (digits2_pos (a * b)).
Proof.
  pose proof (F64.digits2_pos_lower a) as Ha.
  pose proof (F64.digits2_pos_lower b) as Hb.
  pose proof (F64.digits2_pos_upper (a * b)) as Hab.
  set (da := Zpos (digits2_pos a)) in *.
  set (db := Zpos (digits2_pos b)) in *.
  set (dab := Zpos (digits2_pos (a * b))) in *.
  assert (Hda : 0 < da) by (subst da; lia).
  assert (Hdb : 0 < db) by (subst db; lia).
  assert (Hdab : 0 < dab) by (subst dab; lia).
  assert (H : 2 ^ (da + db) < 2 ^ (dab + 2)).
  { rewrite Z.pow_add_r by lia. rewrite (Z.pow_add_r 2 dab 2) by lia.
    change (2 ^ 2) with 4. rewrite Pos2Z.inj_mul in Hab.
    assert (0 < 2 ^ da) by (apply Z.pow_pos_nonneg; lia).
    assert (0 < 2 ^ db) by (apply Z.pow_pos_nonneg; lia).
    nia. }
  apply Z.pow_lt_mono_r_iff in H; lia.
Qed.

(** A product with a factor of magnitude at least one does not underflow. *)
Lemma SFmul_no_underflow (sx sy : bool) (mx my : positive) (ex ey : Z) :
  1 <= Zpos (digits2_pos mx) + ex ->
  bounded prec emax my ey = true ->
  SFmul prec emax (S754_finite sx mx ex) (S754_finite sy my ey) = S754_infinity (xorb sx sy) \/
  exists m e, SFmul prec emax (S754_finite sx mx ex) (S754_finite sy my ey)
              = S754_finite (xorb sx sy) m e.
Proof.
  intros Hx Hb. unfold bounded, canonical_mantissa in Hb. rewrite F64.fexp64 in Hb.
  apply andb_prop in Hb. destruct Hb as [Hc _]. apply Z.eqb_eq in Hc.
  cbn [SFmul]. apply F64.binary_round_aux_positive.
  pose proof (digits2_pos_mul mx my). lia.
Qed.

End Products.

Lemma mul_at_least_one_nonzero c x :
  at_least_one c -> (x =? 0) = false -> (c * x =? 0) = false.
Proof.
  intros (s & m & e & Hc & Hd) Hx.
  pose proof (eqb_zero_false_decoded _ Hx) as Hnz.
  pose proof (Prim2SF_valid x) as Hv.
  rewrite eqb_spec, mul_spec, Hc, F64.Prim2SF_0.
  destruct (Prim2SF x) as [sx|sx| |sx mx ex] eqn:E.
  - destruct (Hnz sx). reflexivity.
  - destruct s, sx; reflexivity.
  - reflexivity.
  - cbn [SpecFloat.valid_binary] in Hv.
    destruct (SFmul_no_underflow s sx m mx e ex Hd Hv) as [H | (m' & e' & H)];
      unfold SF64mul; rewrite H; destruct (xorb s sx); reflexivity.
Qed.

End F64More.

(** ** More binary64 facts: exact operations *)

Module F64Exact.
Import Decoded Binary64 F64More.
Open Scope float_scope.

(** *** The NaN goes through every operation *)






(** *** Finite residuals *)

Lemma Prim2SF_1 : Prim2SF 1 = S754_finite false m64 (-52).
Proof. vm_compute. reflexivity. Qed.





(** *** Results that are numbers of the format are not rounded *)

Section Exact.
Open Scope Z_scope.

Lemma shr_1_exact (k : Z) :
  0 < k ->
  shr_1 {| shr_m := 2 * k; shr_r := false; shr_s := false |}
  = {| shr_m := k; shr_r := false; shr_s := false |}.
Proof. destruct k as [|p|p]; intros H; try lia. reflexivity. Qed.

Lemma iter_shr_1_exact (p : positive) :
  forall k : Z, 0 < k ->
    iter_pos shr_1 p {| shr_m := k * 2 ^ Zpos p; shr_r := false; shr_s := false |}
    = {| shr_m := k; shr_r := false; shr_s := false |}.
Proof.
  induction p as [p IH|p IH|]; intros k Hk; cbn [iter_pos].
  - assert (Hp : 0 < 2 ^ Zpos p) by (apply Z.pow_pos_nonneg; lia).
    replace (k * 2 ^ Zpos p~1) with (2 * (k * 2 ^ Zpos p * 2 ^ Zpos p)).
    2:{ replace (Zpos p~1) with (Zpos p + Zpos p + 1) by lia.
        rewrite !Z.pow_add_r, Z.pow_1_r by lia. ring. }
    rewrite shr_1_exact by nia. rewrite IH by nia. apply IH, Hk.
  - assert (Hp : 0 < 2 ^ Zpos p) by (apply Z.pow_pos_nonneg; lia).
    replace (k * 2 ^ Zpos p~0) with (k * 2 ^ Zpos p * 2 ^ Zpos p).
    2:{ replace (Zpos p~0) with (Zpos p + Zpos p) by lia.
        rewrite Z.pow_add_r by lia. ring. }
    rewrite IH by nia. apply IH, Hk.
  - rewrite Z.pow_1_r, Z.mul_comm. apply shr_1_exact, Hk.
Qed.


(** The number of digits is the position of the leading one. *)
Lemma digits2_pos_unique (m : positive) (d : Z) :
  2 ^ (d - 1) <= Zpos m < 2 ^ d -> Zpos (digits2_pos m) = d.
Proof.
  intros [Hlo Hhi].
  pose proof (F64.digits2_pos_lower m) as Hl.
  pose proof (F64.digits2_pos_upper m) as Hu.
  set (dm := Zpos (digits2_pos m)) in *.
  assert (Hdm : 0 < dm) by (subst dm; lia).
  assert (Hd : 0 < d).
  { destruct (Z.lt_ge_cases 0 d) as [H|H]; [exact H|exfalso].
    destruct (Z.eq_dec d 0) as [->|Hn]; [cbn in Hhi; lia|].
    rewrite (Z.pow_neg_r 2 d) in Hhi by lia. lia. }
  assert (H1 : 2 ^ dm < 2 ^ (d + 1)).
  { rewrite (Z.pow_add_r 2 d 1), Z.pow_1_r by lia. lia. }
  assert (H2 : 2 ^ (d - 1) < 2 ^ dm) by lia.
  apply Z.pow_lt_mono_r_iff in H1; [|lia|lia].
  apply Z.pow_lt_mono_r_iff in H2; [|lia|lia].
  lia.
Qed.

Lemma digits2_pos_shiftl (m M : positive) (k : Z) :
  0 <= k -> Zpos M = Zpos m * 2 ^ k ->
  Zpos (digits2_pos M) = Zpos (digits2_pos m) + k.
Proof.
  intros Hk HM.
  pose proof (F64.digits2_pos_lower m) as Hl.
  pose proof (F64.digits2_pos_upper m) as Hu.
  set (dm := Zpos (digits2_pos m)) in *.
  assert (Hdm : 0 < dm) by (subst dm; lia).
  assert (Hp : 0 < 2 ^ k) by (apply Z.pow_pos_nonneg; lia).
  assert (Hs : 2 ^ dm = 2 * 2 ^ (dm - 1)).
  { replace dm with (Z.succ (dm - 1)) at 1 by lia. apply Z.pow_succ_r. lia. }
  apply digits2_pos_unique. rewrite HM.
  replace (dm + k - 1) with (dm - 1 + k) by lia.
  rewrite !Z.pow_add_r by lia. nia.
Qed.

Lemma bounded_canonical (m : positive) (e : Z) :
  bounded prec emax m e = true ->
  Z.max (Zpos (digits2_pos m) + e - 53) emin64 = e /\ e <= 971.
Proof.
  unfold bounded, canonical_mantissa. rewrite F64.fexp64.
  intros Hb. apply andb_prop in Hb. destruct Hb as [Hc He].
  apply Z.eqb_eq in Hc. apply Z.leb_le in He.
  change (emax - prec) with 971 in He. split; assumption.
Qed.

(** A mantissa that already is in the format goes through the rounding
    unchanged. *)
Lemma binary_round_aux_canonical (s : bool) (m : positive) (e : Z) :
  bounded prec emax m e = true ->
  binary_round_aux prec emax s (Zpos m) e loc_Exact = S754_finite s m e.
Proof.
  intros Hb. destruct (bounded_canonical m e Hb) as [Hc He].
  unfold binary_round_aux, shr_fexp. cbn [Zdigits2]. rewrite F64.fexp64, Hc, Z.sub_diag.
  cbn [shr shr_record_of_loc shr_m loc_of_shr_record shr_r shr_s round_nearest_even Zdigits2].
  rewrite F64.fexp64, Hc, Z.sub_diag. cbn [shr shr_record_of_loc shr_m].
  change (emax - prec) with 971.
  apply Z.leb_le in He. rewrite He. reflexivity.
Qed.

(** A mantissa with trailing zeros that, once they are shifted out, is in
    the format is rounded exactly. *)
Lemma binary_round_aux_exact (s : bool) (M m : positive) (E e : Z) :
  bounded prec emax m e = true -> E <= e -> Zpos M = Zpos m * 2 ^ (e - E) ->
  binary_round_aux prec emax s (Zpos M) E loc_Exact = S754_finite s m e.
Proof.
  intros Hb HE HM. destruct (bounded_canonical m e Hb) as [Hc He].
  destruct (Z.eq_dec E e) as [->|Hne].
  - rewrite Z.sub_diag, Z.pow_0_r, Z.mul_1_r in HM. injection HM as ->.
    apply binary_round_aux_canonical, Hb.
  - pose proof (digits2_pos_shiftl m M (e - E) ltac:(lia) HM) as Hd.
    unfold binary_round_aux, shr_fexp. cbn [Zdigits2]. rewrite Hd, F64.fexp64.
    replace (Z.max (Zpos (digits2_pos m) + (e - E) + E - 53) emin64 - E) with (e - E) by lia.
    destruct (e - E) as [|p|p] eqn:Ep; try lia.
    cbn [shr shr_record_of_loc]. rewrite HM, iter_shr_1_exact by lia.
    cbn [shr_m loc_of_shr_record shr_r shr_s round_nearest_even Zdigits2].
    replace (E + Zpos p) with e by lia.
    rewrite F64.fexp64, Hc, Z.sub_diag. cbn [shr shr_record_of_loc shr_m].
    change (emax - prec) with 971.
    apply Z.leb_le in He. rewrite He. reflexivity.
Qed.

(** The product of a number of the format with one is the number. *)
Lemma SFmul_1_r (s : bool) (m : positive) (e : Z) :
  bounded prec emax m e = true ->
  SFmul prec emax (S754_finite s m e) (S754_finite false m64 (-52)) = S754_finite s m e.
Proof.
  intros Hb. cbn [SFmul]. rewrite xorb_false_r.
  apply binary_round_aux_exact; [exact Hb|lia|].
  rewrite Pos2Z.inj_mul, F64.m64_pow. f_equal. f_equal. lia.
Qed.








End Exact.

Lemma mul_1_r x : x * 1 = x.
Proof.
  apply Prim2SF_inj. rewrite mul_spec, Prim2SF_1.
  pose proof (Prim2SF_valid x) as Hv.
  destruct (Prim2SF x) as [s|s| |s m e].
  - destruct s; reflexivity.
  - destruct s; reflexivity.
  - reflexivity.
  - apply SFmul_1_r. exact Hv.
Qed.

(** *** The laminar value at the turbulent bound *)









End F64Exact.

(** ** The resolver, regime by regime *)

Section ResolverFacts.
Context `{L : Libs}.
Open Scope float_scope.

Lemma truediv_nonzero (a : float) (Re : number) :
  (val Re =? 0) = false -> truediv a Re = Ok (a / val Re).
Proof.
  destruct Re as [v|v]; cbn [truediv val]; intros H.
  - rewrite H. reflexivity.
  - reflexivity.
Qed.

Lemma ff_turbulent (Re : number) (rr : float) :
  ff Re rr true = Ok (sol_x (fsolve (cb Re rr) 0.02)).
Proof. reflexivity. Qed.

Lemma ff_laminar (Re : number) (rr : float) :
  ff Re rr false = truediv 64 Re.
Proof. reflexivity. Qed.

(** The three branches of [calculate_friction_factor]. *)

Lemma resolver_turbulent (Re : number) (rr : float) (s : rng) :
  (4000 <=? val Re) = true ->
  calculate_friction_factor Re rr s = (Ok (sol_x (fsolve (cb Re rr) 0.02)), s).
Proof.
  intros H. unfold calculate_friction_factor. rewrite H. reflexivity.
Qed.

Lemma resolver_laminar (Re : number) (rr : float) (s : rng) :
  (val Re <=? 2000) = true ->
  calculate_friction_factor Re rr s = (truediv 64 Re, s).
Proof.
  intros H. unfold calculate_friction_factor.
  rewrite (F64.le_2000_not_ge_4000 _ H), H. reflexivity.
Qed.

Lemma resolver_transition (Re : number) (rr : float) (s : rng) :
  (4000 <=? val Re) = false -> (val Re <=? 2000) = false ->
  calculate_friction_factor Re rr s =
    let f_CB := sol_x (fsolve (cb Re rr) 0.02) in
    let f_lam := 64 / val Re in
    let mu := mu_f (val Re) f_CB f_lam in
    let d := normalvariate mu (sigma_f mu) s in
    (Ok (fst d), snd d).
Proof.
  intros H4 H2. unfold calculate_friction_factor. rewrite H4, H2.
  assert (Hz : (val Re =? 0) = false).
  { destruct (val Re =? 0) eqn:E; [|reflexivity].
    rewrite (F64.zero_le_2000 _ E) in H2. discriminate. }
  unfold bind, pure, draw. rewrite ff_turbulent, (truediv_nonzero _ _ Hz).
  cbv zeta. destruct (normalvariate _ _ s). reflexivity.
Qed.

Lemma resolver_laminar_value (Re : number) (rr : float) (s : rng) :
  (0 <? val Re) = true -> (val Re <=? 2000) = true ->
  calculate_friction_factor Re rr s = (Ok (64 / val Re), s).
Proof.
  intros Hpos Hle.
  rewrite (resolver_laminar _ _ _ Hle), (truediv_nonzero _ _ (F64.pos_not_zero _ Hpos)).
  reflexivity.
Qed.

(** C2. For every Reynolds number with [0 < Re <= 2000] the resolver
    returns exactly [64 / Re], whether the laminar regime is found by
    classification ([calculate_friction_factor]) or forced ([ff] without
    the Colebrook flag); the roughness does not enter the result, and the
    generator is left as it was. *)
Theorem laminar_exact (Re : number) (s : rng) :
  (0 <? val Re) = true -> (val Re <=? 2000) = true ->
  forall rr : float,
    calculate_friction_factor Re rr s = (Ok (64 / val Re), s) /\
    ff Re rr false = Ok (64 / val Re).
Proof.
  intros Hpos Hle rr. split.
  - apply resolver_laminar_value; assumption.
  - rewrite ff_laminar. apply truediv_nonzero, F64.pos_not_zero, Hpos.
Qed.

(** C3. For every unforced input with [2000 < Re < 4000] the resolver
    computes the laminar prediction [64 / Re] and the turbulent
    prediction of [ff] at the same [(Re, rr)], forms the mean
    [mu = f_lam + (f_turb - f_lam) * ((Re - 2000) / 2000)] and the spread
    [sigma = 0.2 * mu], and returns one draw of [normalvariate mu sigma];
    the generator advances by that draw. *)
Theorem transition_draw (Re : number) (rr : float) (s : rng) :
  (2000 <? val Re) = true -> (val Re <? 4000) = true ->
  exists f_lam f_turb : float,
    truediv 64 Re = Ok f_lam /\ f_lam = 64 / val Re /\
    ff Re rr true = Ok f_turb /\
    let mu := f_lam + (f_turb - f_lam) * ((val Re - 2000) / 2000) in
    let sigma := 0.2 * mu in
    calculate_friction_factor Re rr s =
      (Ok (fst (normalvariate mu sigma s)), snd (normalvariate mu sigma s)).
Proof.
  intros Hlo Hhi.
  pose proof (F64.gt_2000_not_le_2000 _ Hlo) as H2.
  pose proof (F64.lt_4000_not_ge_4000 _ Hhi) as H4.
  assert (Hz : (val Re =? 0) = false).
  { destruct (val Re =? 0) eqn:E; [|reflexivity].
    rewrite (F64.zero_le_2000 _ E) in H2. discriminate. }
  exists (64 / val Re), (sol_x (fsolve (cb Re rr) 0.02)).
  repeat split.
  - apply truediv_nonzero, Hz.
  - rewrite (resolver_transition _ _ _ H4 H2). reflexivity.
Qed.

(** C10. Outside the transition band the resolver is deterministic: for
    [Re <= 2000] or [Re >= 4000] a call leaves the generator state as it
    found it and its result is the same from every generator state, so
    two calls on the same [(Re, rr)] agree.  A call that changes the
    generator state therefore comes from the remaining branch. *)
Theorem outside_band_deterministic (Re : number) (rr : float) (s s' : rng) :
  (val Re <=? 2000) = true \/ (4000 <=? val Re) = true ->
  snd (calculate_friction_factor Re rr s) = s /\
  fst (calculate_friction_factor Re rr s) = fst (calculate_friction_factor Re rr s') /\
  calculate_friction_factor Re rr (snd (calculate_friction_factor Re rr s))
    = calculate_friction_factor Re rr s.
Proof.
  intros [H | H].
  - rewrite !(resolver_laminar _ _ _ H). repeat split.
  - rewrite !(resolver_turbulent _ _ _ H). repeat split.
Qed.


(** C4, as the code has it.  The resolver has no domain guard.  Its one
    failure is the [ZeroDivisionError] of the laminar division, raised
    exactly when the Reynolds number is a Python float equal to zero;
    every other input, whatever the roughness, yields a number, and a
    negative Reynolds number yields the negative quotient [64 / Re]. *)
Theorem no_domain_guard (Re : number) (rr : float) (s : rng) :
  (fst (calculate_friction_factor Re rr s) = Raise ZeroDivisionError <->
   exists v, Re = PyFloat v /\ (v =? 0) = true) /\
  ((forall v, Re = PyFloat v -> (v =? 0) = false) ->
   exists f, fst (calculate_friction_factor Re rr s) = Ok f) /\
  ((val Re <? 0) = true ->
   calculate_friction_factor Re rr s = (Ok (64 / val Re), s)).
Proof.
  assert (Hfail : fst (calculate_friction_factor Re rr s) = Raise ZeroDivisionError <->
                  exists v, Re = PyFloat v /\ (v =? 0) = true).
  { destruct (4000 <=? val Re) eqn:H4; [|destruct (val Re <=? 2000) eqn:H2].
    - rewrite (resolver_turbulent _ _ _ H4). cbn [fst]. split; [discriminate|].
      intros (v & -> & Hv). cbn [val] in H4.
      rewrite (F64.le_2000_not_ge_4000 _ (F64.zero_le_2000 _ Hv)) in H4. discriminate.
    - rewrite (resolver_laminar _ _ _ H2). cbn [fst].
      destruct Re as [v|v]; cbn [truediv].
      + destruct (v =? 0) eqn:Hv.
        * split; [intros _; exists v; split; [reflexivity|exact Hv]|reflexivity].
        * split; [discriminate|]. intros (v' & Hv' & Hz). injection Hv' as ->. congruence.
      + split; [discriminate|]. intros (v' & Hv' & _). discriminate.
    - rewrite (resolver_transition _ _ _ H4 H2). cbn [fst]. split; [discriminate|].
      intros (v & -> & Hv). cbn [val] in H2.
      rewrite (F64.zero_le_2000 _ Hv) in H2. discriminate. }
  split; [exact Hfail|]. split.
  - intros Hnz. destruct (fst (calculate_friction_factor Re rr s)) as [f|[]].
    + exists f. reflexivity.
    + destruct (proj1 Hfail eq_refl) as (v & Hv & Hz).
      rewrite (Hnz v Hv) in Hz. discriminate.
  - intros Hneg.
    rewrite (resolver_laminar _ _ _ (F64.neg_le_2000 _ Hneg)).
    rewrite (truediv_nonzero _ _ (F64.neg_not_zero _ Hneg)). reflexivity.
Qed.






End ResolverFacts.

(** ** The sweep of the sampler *)

Section SamplerFacts.
Context `{L : Libs}.
Open Scope float_scope.

Lemma tbind_ok {A B} (log : list call) (a : A) (k : A -> Traced B) :
  tbind (log, Ok a) k = (log ++ fst (k a), snd (k a)).
Proof. unfold tbind. destruct (k a). reflexivity. Qed.

(** A comprehension whose body never raises visits every element once,
    in order. *)
Lemma comprehension_total {A B} (f : A -> Traced B) (logs : A -> list call) (g : A -> B) :
  (forall x, f x = (logs x, Ok (g x))) ->
  forall xs, comprehension f xs = (flat_map logs xs, Ok (map g xs)).
Proof.
  intros Hf xs. induction xs as [|x xs IH]; cbn [comprehension flat_map map].
  - reflexivity.
  - rewrite Hf, tbind_ok, IH, tbind_ok. cbn [tret fst snd].
    rewrite app_nil_r. reflexivity.
Qed.

Lemma flat_map_singleton {A B} (c : A -> B) (xs : list A) :
  flat_map (fun x => [c x]) xs = map c xs.
Proof. induction xs as [|x xs IH]; cbn; [|rewrite IH]; reflexivity. Qed.

Lemma sweep_laminar (Res : list float) :
  comprehension (fun Re => call_ff (NpFloat64 Re) 0 false) Res
  = (map (forced false 0) Res, Ok (map (fun Re => 64 / Re) Res)).
Proof.
  rewrite (comprehension_total _ (fun Re => [forced false 0 Re]) (fun Re => 64 / Re)).
  - rewrite flat_map_singleton. reflexivity.
  - intros Re. reflexivity.
Qed.

Lemma sweep_turbulent (rr : float) (Res : list float) :
  comprehension (fun Re => call_ff (NpFloat64 Re) rr true) Res
  = (map (forced true rr) Res,
     Ok (map (fun Re => sol_x (fsolve (cb (NpFloat64 Re) rr) 0.02)) Res)).
Proof.
  rewrite (comprehension_total _ (fun Re => [forced true rr Re])
             (fun Re => sol_x (fsolve (cb (NpFloat64 Re) rr) 0.02))).
  - rewrite flat_map_singleton. reflexivity.
  - intros Re. reflexivity.
Qed.

Lemma curves_shape {A B C} (h : A -> B -> C) (rrs : list A) (Res : list B) :
  length (map (fun rr => map (h rr) Res) rrs) = length rrs /\
  Forall (fun curve => length curve = length Res) (map (fun rr => map (h rr) Res) rrs).
Proof.
  split.
  - apply length_map.
  - apply Forall_forall. intros curve Hin. apply in_map_iff in Hin.
    destruct Hin as (rr & <- & _). apply length_map.
Qed.

(** C9. The sampler invokes [ff] with the laminar formula forced, once
    for every Reynolds number of its laminar range and then of its
    transition range, and with the Colebrook formula forced, once for
    every pair of the cross-product of its roughness values and its
    turbulent Reynolds numbers, roughness by roughness; it makes no other
    invocation, none fails, and it never goes through the sampling
    resolver.  The turbulent Reynolds numbers are the 100 log-spaced
    values from 4000 to 1e8, the roughness values are twenty fixed
    constants that increase from 0 to 0.05, and the turbulent series has
    one curve per roughness value, each with one point per Reynolds
    number. *)
Theorem sampler_grid :
  plotMoody =
    (map (forced false 0) ReValsL ++
     map (forced false 0) ReValsTrans ++
     flat_map (fun rr => map (forced true rr) ReValsCB) rrVals,
     Ok {| ffLam := map (fun Re => 64 / Re) ReValsL;
           ffTrans := map (fun Re => 64 / Re) ReValsTrans;
           ffCB := map (fun rr =>
                          map (fun Re => sol_x (fsolve (cb (NpFloat64 Re) rr) 0.02))
                              ReValsCB) rrVals |}) /\
  (exists sr, snd plotMoody = Ok sr /\
     length (ffCB sr) = length rrVals /\
     Forall (fun curve => length curve = length ReValsCB) (ffCB sr)) /\
  ReValsCB = logspace (log10 4000) (log10 1e8) 100 /\
  length rrVals = 20%nat /\
  hd 1 rrVals = 0 /\ last rrVals 1 = 0.05 /\ increasing rrVals = true.
Proof.
  assert (E : plotMoody =
    (map (forced false 0) ReValsL ++
     map (forced false 0) ReValsTrans ++
     flat_map (fun rr => map (forced true rr) ReValsCB) rrVals,
     Ok {| ffLam := map (fun Re => 64 / Re) ReValsL;
           ffTrans := map (fun Re => 64 / Re) ReValsTrans;
           ffCB := map (fun rr =>
                          map (fun Re => sol_x (fsolve (cb (NpFloat64 Re) rr) 0.02))
                              ReValsCB) rrVals |})).
  { unfold plotMoody.
    rewrite (sweep_laminar ReValsL), tbind_ok.
    rewrite (sweep_laminar ReValsTrans), tbind_ok.
    rewrite (comprehension_total _
               (fun rr => map (forced true rr) ReValsCB)
               (fun rr => map (fun Re => sol_x (fsolve (cb (NpFloat64 Re) rr) 0.02))
                              ReValsCB))
      by (intros rr; apply sweep_turbulent).
    rewrite tbind_ok. cbn [tret fst snd]. rewrite app_nil_r. reflexivity. }
  split; [exact E|]. split; [|repeat split; vm_compute; reflexivity].
  rewrite E. eexists. split; [reflexivity|]. apply curves_shape.
Qed.

End SamplerFacts.

(** ** The Colebrook formula over the reals *)

Module IdealFacts.
Import Reals Lra Ideal.
Open Scope R_scope.

(** The Colebrook residual decreases in [f] and increases in the
    roughness, so its positive root can only grow with the roughness. *)
Lemma cb_increasing (Re rr1 rr2 f1 f2 : R) :
  0 < Re -> 0 <= rr1 <= rr2 -> 0 < f2 < f1 -> cb Re rr1 f1 < cb Re rr2 f2.
Proof.
  intros HRe [Hr1 Hr12] [Hf2 Hf21].
  assert (Hs2 : 0 < sqrt f2) by (apply sqrt_lt_R0; exact Hf2).
  assert (Hs : sqrt f2 < sqrt f1) by (apply sqrt_lt_1_alt; lra).
  assert (Hinv : / sqrt f1 < / sqrt f2).
  { apply Rinv_lt_contravar; [apply Rmult_lt_0_compat; lra|exact Hs]. }
  assert (Hq : / (Re * sqrt f1) < / (Re * sqrt f2)).
  { apply Rinv_lt_contravar.
    - apply Rmult_lt_0_compat; apply Rmult_lt_0_compat; lra.
    - apply Rmult_lt_compat_l; lra. }
  assert (Hq1 : 0 < / (Re * sqrt f1)).
  { apply Rinv_0_lt_compat, Rmult_lt_0_compat; lra. }
  set (a1 := rr1 / (37 / 10) + 251 / 100 / (Re * sqrt f1)).
  set (a2 := rr2 / (37 / 10) + 251 / 100 / (Re * sqrt f2)).
  assert (Ha1 : 0 < a1) by (unfold a1, Rdiv; nra).
  assert (Ha : a1 < a2) by (unfold a1, a2, Rdiv; nra).
  assert (Hln : ln a1 < ln a2) by (apply ln_increasing; assumption).
  assert (H10 : 0 < ln 10).
  { rewrite <- ln_1. apply ln_increasing; lra. }
  unfold cb, log10. fold a1 a2.
  assert (Hl : ln a1 / ln 10 < ln a2 / ln 10).
  { unfold Rdiv. apply Rmult_lt_compat_r; [apply Rinv_0_lt_compat, H10|exact Hln]. }
  unfold Rdiv in *. lra.
Qed.

Lemma colebrook_root_monotone (Re rr1 rr2 f1 f2 : R) :
  0 < Re -> 0 <= rr1 <= rr2 -> 0 < f1 -> 0 < f2 ->
  cb Re rr1 f1 = 0 -> cb Re rr2 f2 = 0 -> f1 <= f2.
Proof.
  intros HRe Hrr Hf1 Hf2 H1 H2.
  destruct (Rle_lt_dec f1 f2) as [Hle|Hlt]; [exact Hle|].
  pose proof (cb_increasing Re rr1 rr2 f1 f2 HRe Hrr (conj Hf2 Hlt)) as H. lra.
Qed.

End IdealFacts.

(** ** Concrete runs *)

Module Scenarios.
Import Doubles.
Open Scope float_scope.

(** The resolver over the stand-in libraries, with a budget of 30 secant
    steps. *)
Abbreviation resolve := (@calculate_friction_factor (libs 30)).

(** Re = 1000: the laminar value 0.064, whatever the roughness. *)
Lemma laminar_exact_at_1000 :
  (0 <? 1000) = true /\ (1000 <=? 2000) = true /\
  resolve (PyFloat 1000) 0.001 [] = (Ok 0.064, []) /\
  @ff (libs 30) (PyFloat 1000) 0.001 false = Ok 0.064.
Proof.
  split; [reflexivity|]. split; [reflexivity|].
  exact (@laminar_exact (libs 30) (PyFloat 1000) [] eq_refl eq_refl 0.001).
Defined.

(** Re = 3000 on a smooth pipe, the next deviate being half a standard
    deviation above the mean. *)
Lemma transition_draw_at_3000 :
  (2000 <? 3000) = true /\ (3000 <? 4000) = true /\
  resolve (PyFloat 3000) 0 [0.5] = (Ok 0.035668887156050308, []).
Proof.
  split; [reflexivity|]. split; [reflexivity|].
  destruct (@transition_draw (libs 30) (PyFloat 3000) 0 [0.5] eq_refl eq_refl)
    as (f_lam & f_turb & _ & -> & Hturb & ->).
  vm_compute in Hturb. injection Hturb as <-.
  vm_compute. reflexivity.
Defined.

Lemma outside_band_deterministic_at_1000 :
  ((1000 <=? 2000) = true \/ (4000 <=? 1000) = true) /\
  snd (resolve (PyFloat 1000) 0.001 [0.5]) = [0.5] /\
  fst (resolve (PyFloat 1000) 0.001 [0.5]) = fst (resolve (PyFloat 1000) 0.001 []) /\
  resolve (PyFloat 1000) 0.001 (snd (resolve (PyFloat 1000) 0.001 [0.5]))
    = resolve (PyFloat 1000) 0.001 [0.5].
Proof.
  split; [left; reflexivity|].
  exact (@outside_band_deterministic (libs 30) (PyFloat 1000) 0.001 [0.5] []
           (or_introl eq_refl)).
Defined.

(** C4 fails on the code: Re = -5 lies in the domain that should be
    rejected and the resolver returns the quotient -12.8. *)
Lemma negative_Re_not_rejected :
  ~ (forall (L : Libs) (Re : number) (rr : float) (s : rng),
       (val Re <=? 0) = true \/ (rr <? 0) = true \/ (0.05 <? rr) = true ->
       exists e, fst (calculate_friction_factor Re rr s) = Raise e).
Proof.
  intros H.
  destruct (H (libs 30) (PyFloat (-5)) 0 [] (or_introl eq_refl)) as [e He].
  vm_compute in He. discriminate He.
Qed.

Lemma no_domain_guard_at_minus_5 :
  (forall v, PyFloat (-5) = PyFloat v -> (v =? 0) = false) /\
  (-5 <? 0) = true /\
  (exists f, fst (resolve (PyFloat (-5)) 0.1 []) = Ok f) /\
  resolve (PyFloat (-5)) 0.1 [] = (Ok (-12.800000000000001), []).
Proof.
  assert (Hnz : forall v, PyFloat (-5) = PyFloat v -> (v =? 0) = false).
  { intros v Hv. injection Hv as <-. reflexivity. }
  split; [exact Hnz|]. split; [reflexivity|].
  destruct (@no_domain_guard (libs 30) (PyFloat (-5)) 0.1 []) as (_ & Hnum & Hneg).
  split; [exact (Hnum Hnz)|exact (Hneg eq_refl)].
Defined.

(** A roughness far outside [[0, 0.05]] is accepted as well, and at zero
    the two kinds of number part ways. *)
Example roughness_not_checked :
  resolve (PyFloat 1000) 7 [] = (Ok 0.064, []) /\
  resolve (PyFloat 0) 0.001 [] = (Raise ZeroDivisionError, []) /\
  resolve (NpFloat64 0) 0.001 [] = (Ok infinity, []).
Proof. repeat split. Qed.






(** On the stand-in libraries the sweep of the sampler makes
    20 + 20 + 20 * 100 invocations of [ff]. *)
Example sweep_invocations :
  length (fst (@plotMoody (libs 30))) = 2040%nat.
Proof. vm_compute. reflexivity. Qed.

End Scenarios.

(** ** The calculator: head loss, marker and one pass of the loop *)

Module CalcFacts.
Import Calc Binary64 F64More.

Section WithLibraries.
Context `{L : Libs} `{M : Libm}.
Open Scope float_scope.

Lemma float_pow_2_zero x : (x =? 0) = true -> float_pow_2 x = Done 0.
Proof.
  intros H. unfold float_pow_2.
  rewrite (zero_not_nan _ H), (zero_not_infinity _ H), H. reflexivity.
Qed.

(** A square that is not zero comes from a number that is not zero. *)
Lemma float_pow_2_nonzero_arg x sq :
  float_pow_2 x = Done sq -> (sq =? 0) = false -> (x =? 0) = false.
Proof.
  intros H Hsq. destruct (x =? 0) eqn:E; [|reflexivity].
  rewrite (float_pow_2_zero _ E) in H. injection H as <-. discriminate Hsq.
Qed.

(** The power fails by overflow only. *)
Lemma float_pow_2_error x e : float_pow_2 x = Failed e -> e = OverflowError.
Proof.
  unfold float_pow_2.
  destruct (is_nan x); [discriminate|].
  destruct (is_infinity x); [discriminate|].
  destruct (x =? 0); [discriminate|].
  destruct ((if x <? 0 then - x else x) =? 1); [discriminate|].
  destruct (is_infinity _); [|discriminate].
  intros H. injection H as <-. reflexivity.
Qed.

Lemma fdiv_nonzero a b : (b =? 0) = false -> fdiv a b = Done (a / b).
Proof. intros H. unfold fdiv. cbn [truediv]. rewrite H. reflexivity. Qed.

Lemma fdiv_zero a b : (b =? 0) = true -> fdiv a b = Failed (Core ZeroDivisionError).
Proof. intros H. unfold fdiv. cbn [truediv]. rewrite H. reflexivity. Qed.

Lemma fdiv_error a b e :
  fdiv a b = Failed e -> e = Core ZeroDivisionError /\ (b =? 0) = true.
Proof.
  unfold fdiv. cbn [truediv]. destruct (b =? 0); cbn [lift]; intros H; [|discriminate].
  injection H as <-. split; reflexivity.
Qed.

Lemma zero_diameter_square (D : float) :
  (D =? 0) = true -> float_pow_2 (D / 12 / 2) = Done 0.
Proof.
  intros H. apply float_pow_2_zero.
  apply zero_div_finite; [|exact finite_nonzero_2].
  apply zero_div_finite; [exact H|exact finite_nonzero_12].
Qed.

(** X1. For a Reynolds number that is not the NaN, the marker that
    [plot_moody_diagram] draws tells what [calculate_friction_factor] did
    with it: the triangle goes with [2000 < Re < 4000], where the
    returned factor is the draw around the interpolated mean, and the
    circle goes with [Re <= 2000] or [Re >= 4000], where the resolver
    returns what [ff] returns with the Colebrook flag set by [Re >= 4000]
    and leaves the generator alone. *)
Theorem marker_matches_regime (Re f rr : float) (s : rng) (ax : axes) :
  (Re =? Re) = true ->
  (points (plot_moody_diagram Re f ax) = points ax ++ [new_point Re f Triangle] /\
   (2000 <? Re) = true /\ (Re <? 4000) = true /\
   calculate_friction_factor (PyFloat Re) rr s =
     (let mu := mu_f Re (sol_x (fsolve (cb (PyFloat Re) rr) 0.02)) (64 / Re) in
      let d := normalvariate mu (sigma_f mu) s in
      (Ok (fst d), snd d)))
  \/
  (points (plot_moody_diagram Re f ax) = points ax ++ [new_point Re f Circle] /\
   ((Re <=? 2000) = true \/ (4000 <=? Re) = true) /\
   calculate_friction_factor (PyFloat Re) rr s = (ff (PyFloat Re) rr (4000 <=? Re), s)).
Proof.
  intros Hnum. unfold plot_moody_diagram. cbn [points].
  destruct (4000 <=? Re) eqn:H4; [|destruct (Re <=? 2000) eqn:H2].
  - right.
    assert (Hlt : (Re <? 4000) = false).
    { destruct (Re <? 4000) eqn:E; [|reflexivity].
      rewrite (F64.lt_4000_not_ge_4000 _ E) in H4. discriminate. }
    rewrite Hlt, andb_false_r. split; [reflexivity|]. split; [right; reflexivity|].
    rewrite (resolver_turbulent (PyFloat Re) rr s H4). reflexivity.
  - right.
    assert (Hgt : (2000 <? Re) = false).
    { destruct (2000 <? Re) eqn:E; [|reflexivity].
      rewrite (F64.gt_2000_not_le_2000 _ E) in H2. discriminate. }
    rewrite Hgt. cbn [andb]. split; [reflexivity|]. split; [left; reflexivity|].
    rewrite (resolver_laminar (PyFloat Re) rr s H2). reflexivity.
  - left.
    rewrite (not_le_2000_gt _ Hnum H2), (not_ge_4000_lt _ Hnum H4). cbn [andb].
    split; [reflexivity|]. split; [reflexivity|]. split; [reflexivity|].
    rewrite (resolver_transition (PyFloat Re) rr s H4 H2). reflexivity.
Qed.

(** X2. A NaN Reynolds number is not turned away: it fails both regime
    tests, so the resolver falls through to the sampling branch and
    returns a draw of [normalvariate] whose mean and spread are both the
    NaN, advancing the generator; and the diagram marks the point with a
    circle, not with the triangle of the sampled regime. *)
Theorem nan_reynolds_is_sampled (Re : number) (f rr : float) (s : rng) (ax : axes) :
  (val Re =? val Re) = false ->
  calculate_friction_factor Re rr s =
    (Ok (fst (normalvariate nan nan s)), snd (normalvariate nan nan s)) /\
  points (plot_moody_diagram (val Re) f ax) = points ax ++ [new_point (val Re) f Circle].
Proof.
  intros H. pose proof (self_eqb_false _ H) as Hnan.
  destruct (nan_unordered 2000) as (_ & Hle2 & Hlt2 & _).
  destruct (nan_unordered 4000) as (_ & _ & _ & Hle4).
  split.
  - rewrite resolver_transition by (rewrite Hnan; assumption).
    rewrite Hnan. unfold mu_f, sigma_f. cbv zeta.
    change (64 / nan) with nan. rewrite sub_nan_r.
    change (nan + nan * ((nan - 2000) / 2000)) with nan.
    change (0.2 * nan) with nan. reflexivity.
  - unfold plot_moody_diagram. cbn [points]. rewrite Hnan, Hlt2. reflexivity.
Qed.

(** X3. A zero diameter makes [compute_head_loss] raise
    [ZeroDivisionError], whatever the friction factor and the flow rate:
    the pipe area is zero and the velocity is a quotient of Python
    floats. *)
Theorem head_loss_zero_diameter (f : number) (Q D : float) :
  (D =? 0) = true -> compute_head_loss f Q D = Failed (Core ZeroDivisionError).
Proof.
  intros H. unfold compute_head_loss. cbv zeta.
  rewrite (zero_diameter_square D H). change (np_pi * 0) with 0.
  rewrite fdiv_zero by reflexivity. reflexivity.
Qed.

(** X4. [compute_head_loss] raises [ZeroDivisionError] exactly when the
    pipe area [np.pi * (D_ft / 2) ** 2] evaluates to zero: the division
    by [2 * g * D_ft] that ends the function never raises, because
    whenever it is reached [D_ft] is not zero and the product with
    [2 * g] cannot underflow. *)
Theorem head_loss_zero_division (f : number) (Q D : float) :
  compute_head_loss f Q D = Failed (Core ZeroDivisionError) <->
  exists sq, float_pow_2 (D / 12 / 2) = Done sq /\ (np_pi * sq =? 0) = true.
Proof.
  unfold compute_head_loss. cbv zeta. split.
  - destruct (float_pow_2 (D / 12 / 2)) as [sq|e] eqn:Hsq.
    2:{ intros H. injection H as ->. discriminate (float_pow_2_error _ _ Hsq). }
    destruct (np_pi * sq =? 0) eqn:Harea.
    { intros _. exists sq. split; [reflexivity|exact Harea]. }
    rewrite (fdiv_nonzero _ _ Harea).
    destruct (float_pow_2 (Q / 448.831 / (np_pi * sq))) as [V2|e] eqn:HV2.
    2:{ intros H. injection H as ->. discriminate (float_pow_2_error _ _ HV2). }
    destruct f as [v|v]; [|discriminate].
    intros H. apply fdiv_error in H. destruct H as [_ Hden]. exfalso.
    assert (Hsq0 : (sq =? 0) = false).
    { destruct (sq =? 0) eqn:E; [|reflexivity].
      rewrite (finite_mul_zero _ _ finite_pi E) in Harea. discriminate. }
    pose proof (float_pow_2_nonzero_arg _ _ Hsq Hsq0) as Hh.
    assert (Hd : (D / 12 =? 0) = false).
    { destruct (D / 12 =? 0) eqn:E; [|reflexivity].
      rewrite (zero_div_finite _ _ E finite_nonzero_2) in Hh. discriminate. }
    rewrite (mul_at_least_one_nonzero _ _ two_g_at_least_one Hd) in Hden. discriminate.
  - intros (sq & -> & Harea). rewrite (fdiv_zero _ _ Harea). reflexivity.
Qed.

(** X5. A zero diameter ends a pass of the loop of [main] with
    [ZeroDivisionError] at the relative roughness, before the velocity is
    computed: the generator is not advanced and no point is drawn. *)
Theorem main_case_zero_diameter (D e_mics Q : float) (w : rng * axes) :
  (D =? 0) = true ->
  main_case D e_mics Q w = (Failed (Core ZeroDivisionError), w).
Proof.
  intros H. unfold main_case. destruct w as [s ax]. cbv zeta.
  rewrite fdiv_zero by (apply zero_div_finite; [exact H|exact finite_nonzero_12]).
  reflexivity.
Qed.

(** X6. A zero flow rate ends a pass of the loop of [main] with
    [ZeroDivisionError]: for a finite diameter that is not zero and whose
    pipe area evaluates to a positive number, the velocity and the
    Reynolds number are zero, and the laminar formula [64 / Re] divides
    by it.  Nothing is printed or drawn and the generator is not
    advanced. *)
Theorem main_case_zero_flow (D e_mics Q sq : float) (w : rng * axes) :
  (Q =? 0) = true ->
  (D / 12 =? 0) = false -> finite (D / 12) = true ->
  float_pow_2 (D / 12 / 2) = Done sq -> (0 <? np_pi * sq) = true ->
  main_case D e_mics Q w = (Failed (Core ZeroDivisionError), w).
Proof.
  intros HQ HD Hfin Hsq Harea. unfold main_case. destruct w as [s ax]. cbv zeta.
  rewrite (fdiv_nonzero _ _ HD), Hsq, (fdiv_nonzero _ _ (F64.pos_not_zero _ Harea)).
  set (V := Q / 448.831 / (np_pi * sq)).
  assert (HV : (V =? 0) = true).
  { apply zero_div_pos; [|exact Harea].
    apply zero_div_finite; [exact HQ|exact finite_nonzero_gpm]. }
  set (Re := V * (D / 12) / 1.08e-5).
  assert (HRe : (Re =? 0) = true).
  { apply zero_div_finite; [|exact finite_nonzero_viscosity].
    apply zero_mul_finite; assumption. }
  rewrite (resolver_laminar (PyFloat Re) _ s (F64.zero_le_2000 _ HRe)).
  cbn [truediv]. rewrite HRe. reflexivity.
Qed.

(** X7. A pass of the loop of [main] never removes or changes a point of
    the diagram: when it succeeds the axes hold the earlier points
    followed by exactly one new point, at the Reynolds number and the
    friction factor it reports, and the three texts; when it fails, with
    whatever exception, the axes are as they were. *)
Theorem main_case_figure (D e_mics Q : float) (s : rng) (ax : axes) :
  match main_case D e_mics Q (s, ax) with
  | (Done rep, (s', ax')) =>
      exists mk, ax' = {| points := points ax ++ [new_point (rep_Re rep) (rep_f rep) mk];
                          xlabel := Labels.x_text;
                          ylabel := Labels.y_text;
                          title := Labels.title_text |}
  | (Failed _, (s', ax')) => ax' = ax
  end.
Proof.
  unfold main_case. cbv zeta.
  destruct (fdiv _ (D / 12)) as [rr|e1]; [|reflexivity].
  destruct (float_pow_2 (D / 12 / 2)) as [sq|e2]; [|reflexivity].
  destruct (fdiv _ (np_pi * sq)) as [V|e3]; [|reflexivity].
  destruct (calculate_friction_factor _ rr s) as [[f|e4] s']; [|reflexivity].
  destruct (compute_head_loss _ Q D) as [hf|e5]; [|reflexivity].
  cbn [rep_Re rep_f]. unfold plot_moody_diagram. eexists. reflexivity.
Qed.

(** X8. A [ZeroDivisionError] in a pass of the loop of [main] leaves the
    session as it found it: wherever the division by zero happens (at
    the relative roughness, at the velocity or in the laminar formula),
    the generator has not been advanced and no point has been drawn. *)
Theorem main_case_zero_division_atomic (D e_mics Q : float) (w w' : rng * axes) :
  main_case D e_mics Q w = (Failed (Core ZeroDivisionError), w') -> w' = w.
Proof.
  unfold main_case. destruct w as [s ax]. cbv zeta.
  destruct (fdiv _ (D / 12)) as [rr|e1]; [|intros H; injection H as _ <-; reflexivity].
  destruct (float_pow_2 (D / 12 / 2)) as [sq|e2] eqn:Hsq;
    [|intros H; injection H as _ <-; reflexivity].
  destruct (fdiv _ (np_pi * sq)) as [V|e3] eqn:HV;
    [|intros H; injection H as _ <-; reflexivity].
  set (Re := V * (D / 12) / 1.08e-5).
  unfold returned, compute_head_loss. cbv zeta. rewrite Hsq, HV.
  destruct (4000 <=? Re) eqn:H4; [|destruct (Re <=? 2000) eqn:H2].
  - rewrite (resolver_turbulent (PyFloat Re) rr s H4).
    destruct (float_pow_2 V) as [V2|e] eqn:HV2.
    + discriminate.
    + intros H. injection H as -> _. discriminate (float_pow_2_error _ _ HV2).
  - rewrite (resolver_laminar (PyFloat Re) rr s H2).
    destruct (truediv 64 (PyFloat Re)) as [f|e]; [|intros H; injection H as _ <-; reflexivity].
    destruct (float_pow_2 V) as [V2|e]; [|intros H; injection H as _ <-; reflexivity].
    cbv beta iota.
    destruct (fdiv (val (PyFloat f) * V2) _);
      [discriminate|intros H; injection H as _ <-; reflexivity].
  - rewrite (resolver_transition (PyFloat Re) rr s H4 H2). cbv zeta. cbn [fst snd].
    destruct (float_pow_2 V) as [V2|e] eqn:HV2.
    + discriminate.
    + intros H. injection H as -> _. discriminate (float_pow_2_error _ _ HV2).
Qed.

End WithLibraries.

End CalcFacts.

(** ** The piston model *)

Module PistonFacts.
Import Piston Binary64 F64More.
Open Scope float_scope.

Lemma unpack_10 {A} (l : list A) :
  length l = 10%nat -> exists a b c d e f g h i j, l = [a; b; c; d; e; f; g; h; i; j].
Proof.
  intros H. do 10 (destruct l as [|? l]; [discriminate H|]).
  destruct l; [|discriminate H]. repeat eexists.
Qed.

Lemma unpack_4 {A} (l : list A) :
  length l = 4%nat -> exists a b c d, l = [a; b; c; d].
Proof.
  intros H. do 4 (destruct l as [|? l]; [discriminate H|]).
  destruct l; [|discriminate H]. repeat eexists.
Qed.

Lemma ndiv_error a b e : ndiv a b = Failed e -> e = Division ZeroDivisionError.
Proof.
  unfold ndiv. destruct a, b; try discriminate.
  destruct (_ =? 0); [|discriminate]. intros H. injection H as <-. reflexivity.
Qed.

(** X13. [ode_system] raises [ValueError] exactly when it is not given
    ten parameters and four state variables; with the right numbers of
    both, the only exception left is that of a division. *)
Theorem ode_system_unpacking (t : number) (X params : list number) :
  ode_system t X params = Failed ValueError <->
  length params <> 10%nat \/ length X <> 4%nat.
Proof.
  split.
  - intros H.
    destruct (Nat.eq_dec (length params) 10) as [Hp|Hp]; [|left; exact Hp].
    destruct (Nat.eq_dec (length X) 4) as [HX|HX]; [|right; exact HX].
    exfalso.
    destruct (unpack_10 params Hp) as (A & Cd & ps & pa & V & beta & rho & Kv & m & y & ->).
    destruct (unpack_4 X HX) as (x & xdot & p1 & p2 & ->).
    cbn [ode_system] in H.
    destruct (ndiv (nmul A (nsub p1 p2)) m) as [xddot|e] eqn:E1.
    + destruct (ndiv beta V) as [q|e] eqn:E2; [discriminate H|].
      injection H as ->. discriminate (ndiv_error _ _ _ E2).
    + injection H as ->. discriminate (ndiv_error _ _ _ E1).
  - intros [Hp|HX].
    + do 10 (destruct params as [|? params]; [reflexivity|]).
      destruct params; [destruct Hp; reflexivity|reflexivity].
    + do 10 (destruct params as [|? params]; [reflexivity|]).
      destruct params; [|reflexivity].
      do 4 (destruct X as [|? X]; [reflexivity|]).
      destruct X; [destruct HX; reflexivity|reflexivity].
Qed.

(** The call the integrator makes: a numpy state and Python
    parameters. *)
Lemma ode_system_in_solver
    (t : number) (x xdot p1 p2 A Cd ps pa V beta rho Kvalve m y : float) :
  ode_system t (map NpFloat64 [x; xdot; p1; p2])
               (map PyFloat [A; Cd; ps; pa; V; beta; rho; Kvalve; m; y])
  = if V =? 0 then Failed (Division ZeroDivisionError)
    else Done (map NpFloat64 [xdot;
                              A * (p1 - p2) / m;
                              beta / V * (Kvalve * (ps - p1));
                              beta / V * (Kvalve * (p2 - pa))]).
Proof.
  cbn [map ode_system ndiv nmul nsub like val].
  destruct (V =? 0); reflexivity.
Qed.

(** X14. Called by the integrator, on a numpy state of four variables
    with ten Python float parameters, [ode_system] fails exactly when the
    volume [V] is zero, and then with [ZeroDivisionError]; a zero mass
    [m] is not an error there, the acceleration being a numpy quotient.
    Whenever it does not fail it returns four derivatives, the first of
    which is the velocity it was given. *)
Theorem ode_system_zero_volume
    (t : number) (x xdot p1 p2 A Cd ps pa V beta rho Kvalve m y : float) :
  let r := ode_system t (map NpFloat64 [x; xdot; p1; p2])
                        (map PyFloat [A; Cd; ps; pa; V; beta; rho; Kvalve; m; y]) in
  (r = Failed (Division ZeroDivisionError) <-> (V =? 0) = true) /\
  ((V =? 0) = false <->
   exists xddot p1dot p2dot, r = Done (map NpFloat64 [xdot; xddot; p1dot; p2dot])).
Proof.
  cbv zeta. rewrite ode_system_in_solver. destruct (V =? 0); split; split;
    try reflexivity; try discriminate.
  - intros (a & b & c & H). discriminate H.
  - intros _. do 3 eexists. reflexivity.
Qed.

(** X15. Called by the integrator with a volume that is not zero,
    [ode_system] returns a zero acceleration when the two chamber
    pressures are equal, a zero rate for the first pressure when it
    equals the supply pressure, and a zero rate for the second pressure
    when it equals the ambient pressure, as long as the numbers involved
    are finite (and the mass is neither zero nor the NaN). *)
Theorem ode_system_balance
    (t : number) (x xdot p1 p2 A Cd ps pa V beta rho Kvalve m y : float) :
  (V =? 0) = false ->
  exists xddot p1dot p2dot,
    ode_system t (map NpFloat64 [x; xdot; p1; p2])
                 (map PyFloat [A; Cd; ps; pa; V; beta; rho; Kvalve; m; y])
    = Done (map NpFloat64 [xdot; xddot; p1dot; p2dot]) /\
    (p1 = p2 -> finite p1 = true -> finite A = true ->
     (m =? 0) = false -> (m =? m) = true ->
     (xddot =? 0) = true) /\
    (p1 = ps -> finite ps = true -> finite Kvalve = true -> finite (beta / V) = true ->
     (p1dot =? 0) = true) /\
    (p2 = pa -> finite pa = true -> finite Kvalve = true -> finite (beta / V) = true ->
     (p2dot =? 0) = true).
Proof.
  intros HV. do 3 eexists. split.
  - rewrite ode_system_in_solver, HV. reflexivity.
  - split; [|split].
    + intros -> Hp HA Hm Hn. apply zero_div_number; [|assumption..].
      apply finite_mul_zero; [assumption|]. apply sub_self, Hp.
    + intros -> Hp HK Hq. apply finite_mul_zero; [assumption|].
      apply finite_mul_zero; [assumption|]. apply sub_self, Hp.
    + intros -> Hp HK Hq. apply finite_mul_zero; [assumption|].
      apply finite_mul_zero; [assumption|]. apply sub_self, Hp.
Qed.

(** The parameters and the initial state of [main] (HW5SP25c.py, lines
    44-46): both chambers at the ambient pressure. *)
Lemma ode_system_balance_at_start :
  (1.473E-4 =? 0) = false /\
  exists xddot p1dot p2dot,
    ode_system (PyFloat 0) (map NpFloat64 [0; 0; 1.0E5; 1.0E5])
      (map PyFloat [4.909E-4; 0.6; 1.4E7; 1.0E5; 1.473E-4; 2.0E9; 850.0; 2.0E-5; 30; 0.002])
    = Done (map NpFloat64 [0; xddot; p1dot; p2dot]) /\
    (xddot =? 0) = true /\ (p2dot =? 0) = true.
Proof.
  split; [reflexivity|].
  destruct (ode_system_balance (PyFloat 0) 0 0 1.0E5 1.0E5
              4.909E-4 0.6 1.4E7 1.0E5 1.473E-4 2.0E9 850.0 2.0E-5 30 0.002 eq_refl)
    as (xddot & p1dot & p2dot & Hrun & Hacc & _ & Hp2).
  exists xddot, p1dot, p2dot. split; [exact Hrun|]. split.
  - exact (Hacc eq_refl eq_refl eq_refl eq_refl eq_refl).
  - exact (Hp2 eq_refl eq_refl eq_refl eq_refl).
Defined.

End PistonFacts.

(** ** Concrete runs of the calculator *)

Module CalcScenarios.
Import Calc Binary64 Doubles CalcDoubles.
Open Scope float_scope.

(** Re = 3000 is drawn with the triangle and sampled. *)
Lemma marker_matches_regime_at_3000 :
  (3000 =? 3000) = true /\
  points (plot_moody_diagram 3000 0.035 fresh_axes) = [new_point 3000 0.035 Triangle] /\
  @calculate_friction_factor (libs 30) (PyFloat 3000) 0 [0.5]
    = (Ok 0.035668887156050308, []).
Proof.
  split; [reflexivity|].
  destruct (@CalcFacts.marker_matches_regime (libs 30) 3000 0.035 0 [0.5] fresh_axes eq_refl)
    as [(Hpt & _ & _ & Hrun) | (_ & [Hle | Hge] & _)].
  - split; [exact Hpt|]. rewrite Hrun. vm_compute. reflexivity.
  - discriminate Hle.
  - discriminate Hge.
Defined.

Lemma nan_reynolds_is_sampled_run :
  (nan =? nan) = false /\
  snd (@calculate_friction_factor (libs 30) (PyFloat nan) 0.001 [0.5]) = [] /\
  points (plot_moody_diagram nan 0.02 fresh_axes) = [new_point nan 0.02 Circle].
Proof.
  split; [reflexivity|].
  destruct (@CalcFacts.nan_reynolds_is_sampled (libs 30) (PyFloat nan) 0.02 0.001 [0.5]
              fresh_axes eq_refl) as [Hrun Hpt].
  split; [rewrite Hrun; reflexivity|exact Hpt].
Defined.

Lemma head_loss_zero_diameter_run :
  (0 =? 0) = true /\
  @compute_head_loss libm (PyFloat 0.02) 500 0 = Failed (Core ZeroDivisionError).
Proof.
  split; [reflexivity|].
  exact (@CalcFacts.head_loss_zero_diameter libm (PyFloat 0.02) 500 0 eq_refl).
Defined.

Lemma main_case_zero_diameter_run :
  (0 =? 0) = true /\
  @main_case (libs 30) libm 0 150 500 ([0.5], fresh_axes) = (Failed (Core ZeroDivisionError), ([0.5], fresh_axes)).
Proof.
  split; [reflexivity|].
  exact (@CalcFacts.main_case_zero_diameter (libs 30) libm 0 150 500 ([0.5], fresh_axes) eq_refl).
Defined.

(** The default diameter of 12 inches with no flow. *)
Lemma main_case_zero_flow_run :
  (0 =? 0) = true /\ (12 / 12 =? 0) = false /\ finite (12 / 12) = true /\
  @float_pow_2 libm (12 / 12 / 2) = Done 0.25 /\ (0 <? np_pi * 0.25) = true /\
  @main_case (libs 30) libm 12 150 0 ([0.5], fresh_axes) = (Failed (Core ZeroDivisionError), ([0.5], fresh_axes)).
Proof.
  repeat (split; [reflexivity|]).
  exact (@CalcFacts.main_case_zero_flow (libs 30) libm 12 150 0 0.25 ([0.5], fresh_axes)
           eq_refl eq_refl eq_refl eq_refl eq_refl).
Defined.

Lemma main_case_zero_division_atomic_run :
  @main_case (libs 30) libm 12 150 0 ([0.5], fresh_axes) = (Failed (Core ZeroDivisionError), ([0.5], fresh_axes)) /\
  ([0.5], fresh_axes) = ([0.5], fresh_axes).
Proof.
  assert (H : @main_case (libs 30) libm 12 150 0 ([0.5], fresh_axes)
              = (Failed (Core ZeroDivisionError), ([0.5], fresh_axes)))
    by (vm_compute; reflexivity).
  split; [exact H|].
  exact (@CalcFacts.main_case_zero_division_atomic (libs 30) libm 12 150 0 _ _ H).
Defined.

(** The defaults of [main]: a 12 inch pipe, 150 micro-inches, 500 gallons
    per minute. *)
Example default_case :
  fst (@main_case (libs 30) libm 12 150 500 ([0.5], fresh_axes))
  = Done {| rep_Re := 131332.89638910969;
            rep_f := 0.017086502181320656;
            rep_hf_L := 0.000534210805927858 |}.
Proof. vm_compute. reflexivity. Qed.

End CalcScenarios.
